(** * Azure subscription resource count: a shallow embedding

    This development embeds [azure/resource-count-azure.py] and proves
    properties of its categorisation, of the AKS node-capacity resolver
    and of the aggregation of per-subscription counts.

    Conventions of the embedding.
    - A Python [str] is a Rocq [string]; a character stands for the
      Unicode code point of the same number (0..255).  [lower], [strip],
      [isdigit] and [int] follow CPython on that range.
    - A Python [int] is a [Z] (no bound; the interpreter's configurable
      limit on the length of a decimal literal is not modelled).
    - A Python [dict] with string keys is a [gmap string Z].
    - The script is module-level code: its variables are the fields of
      [state], threaded through a state-and-exception monad.  A raised
      exception keeps the mutations made before it, as in Python.
    - The external commands ([az], [jq], [wc]) are an oracle, [world];
      the [jq] filter written in the source is embedded on a JSON type.
      [jq] holds a number as a double: the embedding holds the numbers
      that are integers and gives the result of the filter only where the
      arithmetic of doubles is exact.
    - The account list and the resource lists are given as parsed, with
      well-formed members: an account has a name, an id and a state; a
      resource descriptor has a type that is a text and a kind that is a
      text or absent.  A descriptor without a type, or with a kind that
      is not a text, makes the loop body of the source raise in the
      middle of the scan; such lists are outside the embedding. *)

From Stdlib Require Import ZArith Ascii String DecimalString DecimalPos Lia.
From stdpp Require Import gmap strings list fin_maps.

(** ** Python string primitives *)

Module Py.

Definition code (c : ascii) : N := N_of_ascii c.

Definition in_range (lo hi n : N) : bool := ((lo <=? n) && (n <=? hi))%N.

(** [str.lower] on one character: A-Z and the Latin-1 capitals
    (U+00C0..U+00DE without the multiplication sign U+00D7). *)
Definition lower_char (c : ascii) : ascii :=
  let n := code c in
  if in_range 65 90 n || (in_range 192 222 n && negb (n =? 215)%N)
  then ascii_of_N (n + 32) else c.

Fixpoint lower (s : string) : string :=
  match s with
  | EmptyString => EmptyString
  | String c r => String (lower_char c) (lower r)
  end.

(** [str.isspace] on one character. *)
Definition is_space (c : ascii) : bool :=
  let n := code c in
  in_range 9 13 n || in_range 28 32 n || (n =? 133)%N || (n =? 160)%N.

Fixpoint lstrip (s : string) : string :=
  match s with
  | EmptyString => EmptyString
  | String c r => if is_space c then lstrip r else s
  end.

(** Drops trailing whitespace: a character is kept when it is not a
    space or when something is kept after it. *)
Fixpoint rstrip (s : string) : string :=
  match s with
  | EmptyString => EmptyString
  | String c r =>
      match rstrip r with
      | EmptyString => if is_space c then EmptyString else String c EmptyString
      | r' => String c r'
      end
  end.

(** [str.strip()] *)
Definition strip (s : string) : string := rstrip (lstrip s).

(** The ASCII decimal digits, with their values. *)
Definition digit_value (c : ascii) : option Z :=
  let n := code c in
  if in_range 48 57 n then Some (Z.of_N n - 48)%Z else None.

Definition is_ascii_digit (c : ascii) : bool :=
  match digit_value c with Some _ => true | None => false end.

(** One character of [str.isdigit]: the decimal digits and the
    superscripts U+00B2, U+00B3, U+00B9, which [int] does not accept. *)
Definition isdigit_char (c : ascii) : bool :=
  let n := code c in
  in_range 48 57 n || (n =? 178)%N || (n =? 179)%N || (n =? 185)%N.

Fixpoint all_chars (p : ascii -> bool) (s : string) : bool :=
  match s with
  | EmptyString => true
  | String c r => p c && all_chars p r
  end.

(** [str.isdigit()]: at least one character, all of them digits. *)
Definition isdigit (s : string) : bool :=
  match s with
  | EmptyString => false
  | _ => all_chars isdigit_char s
  end.

(** Every character is one of 0..9 and there is at least one. *)
Definition decimal (s : string) : bool :=
  match s with
  | EmptyString => false
  | _ => all_chars is_ascii_digit s
  end.

(** The number a text of decimal digits denotes, read left to right. *)
Fixpoint decimal_value_from (acc : Z) (s : string) : Z :=
  match s with
  | EmptyString => acc
  | String c r => decimal_value_from (10 * acc + default 0 (digit_value c))%Z r
  end.

Definition decimal_value (s : string) : Z := decimal_value_from 0%Z s.

(** The digits of an [int] literal: digits with single underscores
    between them.  [after_digit] tells whether the previous character
    was a digit. *)
Fixpoint int_digits (acc : Z) (after_digit : bool) (s : string) : option Z :=
  match s with
  | EmptyString => if after_digit then Some acc else None
  | String c r =>
      match digit_value c with
      | Some d => int_digits (10 * acc + d)%Z true r
      | None =>
          if Ascii.eqb c "_" && after_digit then int_digits acc false r
          else None
      end
  end.

(** [substring in s] *)
Fixpoint contains (needle hay : string) : bool :=
  String.prefix needle hay ||
  match hay with
  | EmptyString => false
  | String _ r => contains needle r
  end.

(** [str(n)] for an [int]. *)
Definition str_of_int (z : Z) : string := NilZero.string_of_int (Z.to_int z).

(** Exceptions, with the message [str(e)] gives. *)
Inductive exn : Type :=
  | ValueError (msg : string)
  | NameError (name : string)
  | KeyError (key : string)
  | ExternalError (msg : string).

(** [repr(s)] for a text that holds no apostrophe, backslash or control
    character; for other texts [repr] escapes or changes the quotes, and
    the text of the message differs. *)
Definition quote (s : string) : string := "'" +:+ s +:+ "'".

Definition str_exn (e : exn) : string :=
  match e with
  | ValueError msg => msg
  | NameError name => "name " +:+ quote name +:+ " is not defined"
  | KeyError key => quote key
  | ExternalError msg => msg
  end.

(** [int(s)].  The literal is the stripped text: an optional sign, then
    digits.  The message quotes the argument as [repr] does for a text
    without quotes, backslashes or control characters. *)
Definition int (s : string) : exn + Z :=
  let t := strip s in
  let parsed :=
    match t with
    | String "-" r => Z.opp <$> int_digits 0%Z false r
    | String "+" r => int_digits 0%Z false r
    | _ => int_digits 0%Z false t
    end in
  match parsed with
  | Some z => inr z
  | None => inl (ValueError ("invalid literal for int() with base 10: " +:+ quote s))
  end.

End Py.

(** ** The state-and-exception monad of the script *)

(** The external commands the script runs, as recorded in the trace. *)
Inductive command : Type :=
  | AzAccountList
  | AzVmList (subscription_id : string)
  | AzResourceList (subscription_id : string)
  | AzAksList (subscription_id : string).

Global Instance command_eq_dec : EqDecision command.
Proof. solve_decision. Defined.

(** The module-level variables, the text printed so far (one entry per
    [print] call) and the trace of the external commands started so far.
    [requested_order] is bound by the first processed subscription only;
    [sub_census] and [aks_counted_flag] are assigned before any read. *)
Record state : Type := State {
  global_totals : gmap string Z;
  error_list : list string;
  sub_census : gmap string Z;
  aks_counted_flag : bool;
  requested_order : option (list string);
  stdout : list string;
  calls : list command
}.

Definition M (A : Type) : Type := state -> (Py.exn + A) * state.

Definition ret {A} (a : A) : M A := fun st => (inr a, st).

Definition bind {A B} (m : M A) (k : A -> M B) : M B :=
  fun st =>
    match m st with
    | (inr a, st') => k a st'
    | (inl e, st') => (inl e, st')
    end.

Definition raise {A} (e : Py.exn) : M A := fun st => (inl e, st).

(** [try: body except Exception as e: handler e] *)
Definition try_except {A} (body : M A) (handler : Py.exn -> M A) : M A :=
  fun st =>
    match body st with
    | (inr a, st') => (inr a, st')
    | (inl e, st') => handler e st'
    end.

Definition gets {A} (f : state -> A) : M A := fun st => (inr (f st), st).

Definition modify (f : state -> state) : M unit := fun st => (inr tt, f st).

(** The result of a computation that may have raised. *)
Definition lift {A} (r : Py.exn + A) : M A :=
  match r with
  | inl e => raise e
  | inr a => ret a
  end.

Declare Scope py_scope.
Delimit Scope py_scope with py.
Notation "x <- m ;; k" := (bind m (fun x => k))
  (at level 100, m at next level, right associativity) : py_scope.
Notation "m ;; k" := (bind m (fun _ => k))
  (at level 100, right associativity) : py_scope.
Local Open Scope py_scope.

(** [for x in l: body x]; a [continue] ends the body. *)
Fixpoint for_each {A} (l : list A) (body : A -> M unit) : M unit :=
  match l with
  | [] => ret tt
  | x :: rest => body x ;; for_each rest body
  end.

Definition set_global_totals (m : gmap string Z) (st : state) : state :=
  State m (error_list st) (sub_census st) (aks_counted_flag st)
        (requested_order st) (stdout st) (calls st).

Definition set_error_list (l : list string) (st : state) : state :=
  State (global_totals st) l (sub_census st) (aks_counted_flag st)
        (requested_order st) (stdout st) (calls st).

Definition set_sub_census (m : gmap string Z) (st : state) : state :=
  State (global_totals st) (error_list st) m (aks_counted_flag st)
        (requested_order st) (stdout st) (calls st).

Definition set_aks_counted_flag (b : bool) (st : state) : state :=
  State (global_totals st) (error_list st) (sub_census st) b
        (requested_order st) (stdout st) (calls st).

Definition set_requested_order (o : option (list string)) (st : state) : state :=
  State (global_totals st) (error_list st) (sub_census st) (aks_counted_flag st)
        o (stdout st) (calls st).

Definition set_stdout (l : list string) (st : state) : state :=
  State (global_totals st) (error_list st) (sub_census st) (aks_counted_flag st)
        (requested_order st) l (calls st).

Definition set_calls (l : list command) (st : state) : state :=
  State (global_totals st) (error_list st) (sub_census st) (aks_counted_flag st)
        (requested_order st) (stdout st) l.

(** [print(s)] *)
Definition print (s : string) : M unit :=
  modify (fun st => set_stdout (stdout st ++ [s]) st).

(** [error_list.append(s)] *)
Definition error_list_append (s : string) : M unit :=
  modify (fun st => set_error_list (error_list st ++ [s]) st).

(** Starts the external command [c], whose outcome is [r]. *)
Definition run {A} (c : command) (r : Py.exn + A) : M A :=
  modify (fun st => set_calls (calls st ++ [c]) st) ;; lift r.

(** ** Data of the script *)

Record account : Type := Account {
  a_name : string;
  a_id : string;
  a_state : string
}.

(** A resource descriptor: [az_resource['type']] and
    [az_resource.get('kind')] ([None] when the key is absent or null).
    Only well-formed descriptors are held: the type is present and is a
    text, the kind is a text when it is present.  On these the loop body
    reads the type and lowers the kind without raising. *)
Record resource : Type := Resource {
  r_type : string;
  r_kind : option string
}.

(** The outcomes of the external commands.  [json.loads] is applied to
    the account list and to the resource list, so these two are given
    parsed, or as the exception raised by the call or by the parser. *)
Record world : Type := World {
  az_account_list_json : Py.exn + list account;
  az_vm_list_count_output : string -> Py.exn + string;
  az_resource_list_json : string -> Py.exn + list resource;
  aks_count_output : string -> Py.exn + string
}.

Definition VMS : string := "Virtual Machines (VMs)".
Definition CONTAINER_HOSTS : string := "Container Hosts (AKS Clusters)".
Definition CAAS : string := "Container as a Service (CaaS)".
Definition SERVERLESS : string := "Serverless Functions".
Definition BUCKETS : string := "Cloud Buckets (Storage Accounts)".
Definition DATABASES : string := "Managed Cloud Database (PaaS)".
Definition REGISTRIES : string := "Container Registries (ACR)".

Definition RESOURCE_TO_CATEGORY_items : list (string * string) :=
  [ ("microsoft.compute/virtualmachines", VMS);
    ("microsoft.containerservice/managedclusters", CONTAINER_HOSTS);
    ("microsoft.containerinstance/containergroups", CAAS);
    ("microsoft.app/containerapps", CAAS);
    ("microsoft.storage/storageaccounts", BUCKETS);
    ("microsoft.sql/servers", DATABASES);
    ("microsoft.sql/managedinstances", DATABASES);
    ("microsoft.documentdb/databaseaccounts", DATABASES);
    ("microsoft.cache/redis", DATABASES);
    ("microsoft.dbformysql/servers", DATABASES);
    ("microsoft.dbformysql/flexibleservers", DATABASES);
    ("microsoft.dbforpostgresql/servergroupsv2", DATABASES);
    ("microsoft.dbforpostgresql/flexibleservers", DATABASES);
    ("microsoft.dbforpostgresql/servers", DATABASES);
    ("microsoft.containerregistry/registries", REGISTRIES) ].

Definition RESOURCE_TO_CATEGORY : gmap string string :=
  list_to_map RESOURCE_TO_CATEGORY_items.

Definition function_kind : string := "functionapp".

Definition AKS_TYPE : string := "microsoft.containerservice/managedclusters".
Definition SITES_TYPE : string := "microsoft.web/sites".
Definition VM_TYPE : string := "microsoft.compute/virtualmachines".
Definition SYNAPSE_TYPE : string := "microsoft.synapse/workspaces".

(** The dict literal of [global_totals] and of [sub_census]. *)
Definition zero_census : gmap string Z :=
  list_to_map [ (VMS, 0%Z); (CONTAINER_HOSTS, 0%Z); (CAAS, 0%Z);
                (SERVERLESS, 0%Z); (BUCKETS, 0%Z); (DATABASES, 0%Z);
                (REGISTRIES, 0%Z) ].

Definition canonical_order : list string :=
  [ VMS; CONTAINER_HOSTS; CAAS; SERVERLESS; BUCKETS; DATABASES; REGISTRIES ].

Definition initial_state : state :=
  State zero_census [] ∅ false None [] [].

Definition nl : string := String (ascii_of_N 10) EmptyString.

Definition separator : string :=
  "###################################################################################".

(** Truth value of a string or [None]. *)
Definition truthy (o : option string) : bool :=
  match o with
  | Some (String _ _) => true
  | _ => false
  end.

(** ** The script *)

Section Script.

Variable w : world.

(** [get_configured_aks_node_count]: runs [az aks list ... | jq ...] and
    reads the sum it prints. *)
Definition get_configured_aks_node_count
    (subscription_id subscription_name : string) : M Z :=
  try_except
    (output <- run (AzAksList subscription_id) (aks_count_output w subscription_id) ;;
     let count_output := Py.strip output in
     if Py.isdigit count_output then lift (Py.int count_output)
     else if String.eqb count_output "null" || String.eqb count_output "" then ret 0%Z
     else raise (Py.ValueError
                   ("Unexpected output from AKS count pipe: " +:+ count_output)))
    (fun e =>
       error_list_append
         (subscription_name +:+ " (" +:+ subscription_id +:+
          ") - Failed to execute or parse configured AKS node count. Error: " +:+
          Py.str_exn e) ;;
       ret 0%Z).

(** What the second half of the loop body decides for a resource that is
    not a cluster: [continue], or a value of [category]. *)
Inductive decision : Type :=
  | Continue
  | Category (category : option string).

Definition categorize (resource_type : string) (az_resource : resource) : decision :=
  if String.eqb resource_type SITES_TYPE then
    if truthy (r_kind az_resource) &&
       Py.contains function_kind (Py.lower (default EmptyString (r_kind az_resource)))
    then Category (Some SERVERLESS)
    else Continue
  else if String.eqb resource_type VM_TYPE || String.eqb resource_type SYNAPSE_TYPE then
    Continue
  else
    match RESOURCE_TO_CATEGORY !! resource_type with
    | Some category => Category (Some category)
    | None => Category None
    end.

(** [sub_census[category] = sub_census.get(category, 0) + 1] *)
Definition increment (category : string) (m : gmap string Z) : gmap string Z :=
  <[category := (default 0 (m !! category) + 1)%Z]> m.

(** The body of [for az_resource in az_resources]. *)
Definition scan_resource
    (subscription_id subscription_name : string) (az_resource : resource) : M unit :=
  let resource_type := Py.lower (r_type az_resource) in
  flag <- gets aks_counted_flag ;;
  if String.eqb resource_type AKS_TYPE && negb flag then
    print "  Counting POTENTIAL (Max Capacity) AKS Nodes..." ;;
    configured_node_count <-
      get_configured_aks_node_count subscription_id subscription_name ;;
    modify (fun st =>
      set_sub_census (<[CONTAINER_HOSTS := configured_node_count]> (sub_census st)) st) ;;
    modify (set_aks_counted_flag true)
  else if String.eqb resource_type AKS_TYPE && flag then
    ret tt
  else
    match categorize resource_type az_resource with
    | Continue => ret tt
    | Category category =>
        if truthy category then
          modify (fun st =>
            set_sub_census (increment (default EmptyString category) (sub_census st)) st)
        else ret tt
    end.

(** Step 1 of a subscription: the VM count. *)
Definition scan_vms (subscription_id subscription_name : string) : M unit :=
  try_except
    (output <- run (AzVmList subscription_id) (az_vm_list_count_output w subscription_id) ;;
     let az_vm_list_count := Py.strip output in
     sub_vm_count <- lift (Py.int az_vm_list_count) ;;
     if (0 <? sub_vm_count)%Z then
       modify (fun st => set_sub_census (<[VMS := sub_vm_count]> (sub_census st)) st)
     else ret tt)
    (fun e =>
       error_list_append
         (subscription_name +:+ " (" +:+ subscription_id +:+
          ") - Error executing 'az vm list'. Error: " +:+ Py.str_exn e) ;;
       print "  [ERROR] Error executing 'az vm list'.").

(** Step 2 of a subscription: the other resources. *)
Definition scan_resources (subscription_id subscription_name : string) : M unit :=
  try_except
    (az_resources <-
       run (AzResourceList subscription_id) (az_resource_list_json w subscription_id) ;;
     for_each az_resources (scan_resource subscription_id subscription_name))
    (fun e =>
       error_list_append
         (subscription_name +:+ " (" +:+ subscription_id +:+
          ") - Error executing 'az resource list'. Error: " +:+ Py.str_exn e) ;;
       print "  [ERROR] Error executing 'az resource list'.").

(** [global_totals[category] += count] *)
Definition add_to_global_totals (category : string) (count : Z) : M unit :=
  totals <- gets global_totals ;;
  match totals !! category with
  | Some total => modify (set_global_totals (<[category := (total + count)%Z]> totals))
  | None => raise (Py.KeyError category)
  end.

(** The body of [for category in requested_order] in step 3. *)
Definition report_category (category : string) : M unit :=
  census <- gets sub_census ;;
  let count := default 0%Z (census !! category) in
  print ("  " +:+ category +:+ ": " +:+ Py.str_of_int count) ;;
  add_to_global_totals category count.

(** Step 3 of a subscription: the summary and the global totals. *)
Definition report_subscription : M unit :=
  print (nl +:+ "--- Subscription Resource Census ---") ;;
  modify (set_requested_order (Some canonical_order)) ;;
  for_each canonical_order report_category ;;
  print separator.

(** The body of [for az_account in az_account_list]. *)
Definition process_account (az_account : account) : M unit :=
  if negb (String.eqb (a_state az_account) "Enabled") then ret tt
  else
    let subscription_name := a_name az_account in
    let subscription_id := a_id az_account in
    print separator ;;
    print ("Processing Account: " +:+ subscription_name +:+
           " (" +:+ subscription_id +:+ ")") ;;
    modify (set_sub_census zero_census) ;;
    modify (set_aks_counted_flag false) ;;
    scan_vms subscription_id subscription_name ;;
    scan_resources subscription_id subscription_name ;;
    report_subscription.

(** The body of [for category in requested_order] in step 4. *)
Definition grand_total_line (category : string) : M unit :=
  totals <- gets global_totals ;;
  match totals !! category with
  | Some total =>
      print ("Grand Total " +:+ category +:+ ": " +:+ Py.str_of_int total)
  | None => raise (Py.KeyError category)
  end.

(** Step 4: the grand totals, read in the order bound to
    [requested_order]. *)
Definition grand_totals : M unit :=
  print (nl +:+ separator) ;;
  print "--- GRAND TOTALS ACROSS ALL ENABLED SUBSCRIPTIONS ---" ;;
  order <- gets requested_order ;;
  match order with
  | None => raise (Py.NameError "requested_order")
  | Some order => for_each order grand_total_line
  end.

Definition notes : M unit :=
  print separator ;;
  print "Note: The 'Virtual Machines' total includes all states (Running, Stopped, Deallocated, etc.)." ;;
  print "Note: 'Container Hosts (AKS Clusters)' reports the total potential node count (maxCount for autoscale or count for manual)." ;;
  print "Note: 'Cloud Buckets' counts Storage Accounts (excluding Classic/ADLS Gen1)." ;;
  print "Note: 'Container Registries (ACR)' counts the total ACR found, not total container image due to Azure API limitation." ;;
  print "".

Definition print_errors : M unit :=
  errors <- gets error_list ;;
  match errors with
  | [] => ret tt
  | _ =>
      print (nl +:+ separator) ;;
      print "Errors Encountered:" ;;
      for_each errors print ;;
      print separator
  end.

(** The loop over the accounts. *)
Definition process_accounts (az_account_list : list account) : M unit :=
  for_each az_account_list process_account.

(** The whole script, from the fetch of the account list on. *)
Definition main : M unit :=
  az_account_list <- run AzAccountList (az_account_list_json w) ;;
  process_accounts az_account_list ;;
  grand_totals ;;
  notes ;;
  print_errors.

End Script.

(** ** The [jq] filter of the capacity resolver

    [[
      [ .[] | .agentPoolProfiles[]? | ( .maxCount? // .count? ) ]
      | map(select(type == "number")) | add
    ]]
    A filter maps a value to its outputs, or fails with a message.
    The fields of an object are an association list; the last binding of
    a key is the one the object holds.

    Numbers.  [jq] holds a number as an IEEE-754 double.  The documents
    of the embedding are those whose numbers are integers ([Number n] is
    the number of value [n]; a fraction and the negative zero have no
    counterpart).  A double holds an integer exactly up to [2 ^ 53] in
    magnitude, and [jq] prints such a number in plain decimal digits.
    [add] and [render] give a result within that range only; beyond it
    they give none, and the embedding says nothing of what [jq] prints. *)

Module Jq.

#[warnings="-register-all"]
Inductive json : Type :=
  | Null
  | Bool (b : bool)
  | Number (n : Z)
  | Str (s : string)
  | Array (items : list json)
  | Object (fields : list (string * json)).

Definition type_of (v : json) : string :=
  match v with
  | Null => "null"
  | Bool _ => "boolean"
  | Number _ => "number"
  | Str _ => "string"
  | Array _ => "array"
  | Object _ => "object"
  end.

(** The value an object holds for [key], if any. *)
Fixpoint field (key : string) (fields : list (string * json)) : option json :=
  match fields with
  | [] => None
  | (k, v) :: rest =>
      match field key rest with
      | Some v' => Some v'
      | None => if String.eqb k key then Some v else None
      end
  end.

(** The bindings an object holds: a binding shadowed by a later one of
    the same key is dropped. *)
Fixpoint bindings (fields : list (string * json)) : list (string * json) :=
  match fields with
  | [] => []
  | (k, v) :: rest =>
      match field k rest with
      | Some _ => bindings rest
      | None => (k, v) :: bindings rest
      end
  end.

(** [.[]] *)
Definition each (v : json) : string + list json :=
  match v with
  | Array items => inr items
  | Object fields => inr (map snd (bindings fields))
  | _ => inl ("Cannot iterate over " +:+ type_of v)
  end.

(** [.key] *)
Definition index (key : string) (v : json) : string + json :=
  match v with
  | Object fields => inr (default Null (field key fields))
  | Null => inr Null
  | _ => inl ("Cannot index " +:+ type_of v +:+ " with " +:+ key)
  end.

(** [f?]: the outputs of [f], none when it fails. *)
Definition each_opt (v : json) : list json :=
  match each v with
  | inr outputs => outputs
  | inl _ => []
  end.

Definition index_opt (key : string) (v : json) : list json :=
  match index key v with
  | inr output => [output]
  | inl _ => []
  end.

(** Every value but [null] and [false] is true. *)
Definition truth (v : json) : bool :=
  match v with
  | Null | Bool false => false
  | _ => true
  end.

(** [a // b]: the true outputs of [a]; those of [b] when there is none. *)
Definition alternative (a b : list json) : list json :=
  match List.filter truth a with
  | [] => b
  | outputs => outputs
  end.

(** [.maxCount? // .count?] on one node-pool profile. *)
Definition profile_count (profile : json) : list json :=
  alternative (index_opt "maxCount" profile) (index_opt "count" profile).

(** [.agentPoolProfiles[]? | ( .maxCount? // .count? )] on one cluster. *)
Definition cluster_counts (cluster : json) : string + list json :=
  match index "agentPoolProfiles" cluster with
  | inl msg => inl msg
  | inr profiles => inr (concat (map profile_count (each_opt profiles)))
  end.

(** The outputs of a filter over a list of inputs; the first failure
    ends the evaluation. *)
Fixpoint collect (f : json -> string + list json) (inputs : list json)
    : string + list json :=
  match inputs with
  | [] => inr []
  | v :: rest =>
      match f v with
      | inl msg => inl msg
      | inr outputs =>
          match collect f rest with
          | inl msg => inl msg
          | inr outputs' => inr (outputs ++ outputs')
          end
      end
  end.

Definition number_value (v : json) : option Z :=
  match v with
  | Number n => Some n
  | _ => None
  end.

(** [map(select(type == "number"))] *)
Definition numbers (values : list json) : list Z :=
  omap number_value values.

(** An integer that a double holds exactly. *)
Definition exact (n : Z) : bool := (- 2 ^ 53 <=? n)%Z && (n <=? 2 ^ 53)%Z.

(** The sum of [acc] and the numbers of a list, added from left to
    right, when every number and every partial sum is exact. *)
Fixpoint add_from (acc : Z) (values : list Z) : option Z :=
  match values with
  | [] => Some acc
  | v :: rest =>
      if exact v && exact (acc + v) then add_from (acc + v)%Z rest else None
  end.

(** [add] on an array of numbers, which is
    [reduce .[] as $x (null; . + $x)]: [null] when the array is empty,
    else the first number, to which the other ones are added. *)
Definition add (values : list Z) : option json :=
  match values with
  | [] => Some Null
  | v :: rest => if exact v then Number <$> add_from v rest else None
  end.

(** The whole filter: a failure of [jq], or its result; nothing when the
    sum leaves the exact range. *)
Definition sum_filter (document : json) : option (string + json) :=
  match each document with
  | inl msg => Some (inl msg)
  | inr clusters =>
      match collect cluster_counts clusters with
      | inl msg => Some (inl msg)
      | inr counts => inr <$> add (numbers counts)
      end
  end.

(** What [jq -r] prints for a result of the filter, which is [null] or a
    number: [null], or the number in decimal digits. *)
Definition render (v : json) : option string :=
  match v with
  | Null => Some "null"
  | Number n => if exact n then Some (Py.str_of_int n) else None
  | _ => None
  end.

End Jq.

(** The text [subprocess.getoutput] returns for
    [az aks list ... 2>/dev/null | jq -r '...'], from what [az] writes on
    its standard output: nothing when it fails, else a document.  When
    [jq] fails the text is its diagnostic, which the embedding does not
    give; nor does it give a text when the sum leaves the exact range. *)
Definition aks_pipeline (az_stdout : option Jq.json) : option string :=
  match az_stdout with
  | None => Some EmptyString
  | Some document =>
      match Jq.sum_filter document with
      | Some (inr v) => Jq.render v
      | _ => None
      end
  end.

(** The world [w] with an [az aks list] pipe that gives [r] for every
    subscription. *)
Definition with_aks_output (w : world) (r : Py.exn + string) : world :=
  World (az_account_list_json w) (az_vm_list_count_output w)
        (az_resource_list_json w) (fun _ => r).

(** ** Vocabulary of the statements *)

(** The state once the external command [c] has been started. *)
Definition started (c : command) (st : state) : state :=
  set_calls (calls st ++ [c]) st.

(** The number the resolver returns and the error records it appends;
    neither depends on the state it is called in ([resolver_run]). *)
Definition aks_value (w : world) (subscription_id subscription_name : string) : Z :=
  match fst (get_configured_aks_node_count w subscription_id subscription_name
               initial_state) with
  | inr n => n
  | inl _ => 0%Z
  end.

Definition aks_errors (w : world) (subscription_id subscription_name : string)
    : list string :=
  error_list (snd (get_configured_aks_node_count w subscription_id subscription_name
                     initial_state)).

(** A descriptor of a managed cluster. *)
Definition is_aks (r : resource) : bool :=
  String.eqb (Py.lower (r_type r)) AKS_TYPE.

(** The sum of a list of integers. *)
Definition Zsum (l : list Z) : Z := foldr Z.add 0%Z l.

(** The node-pool profiles of a cluster, given by its fields: the
    members of its [agentPoolProfiles], none when that is absent or is
    not a collection. *)
Definition profiles_of (cluster : list (string * Jq.json)) : list Jq.json :=
  Jq.each_opt (default Jq.Null (Jq.field "agentPoolProfiles" cluster)).

(** What a profile adds, in the words of the specification: its
    [maxCount] if present and numeric, else its [count] if present and
    numeric, else nothing. *)
Definition spec_contribution (profile : Jq.json) : Z :=
  match profile with
  | Jq.Object fields =>
      match Jq.field "maxCount" fields with
      | Some (Jq.Number n) => n
      | _ =>
          match Jq.field "count" fields with
          | Some (Jq.Number n) => n
          | _ => 0%Z
          end
      end
  | _ => 0%Z
  end.

(** What a profile adds under the filter: its [maxCount] when that is
    present and neither [null] nor [false], counted if it is a number and
    as nothing otherwise; else its [count] if that is a number; else
    nothing. *)
Definition filter_contribution (profile : Jq.json) : Z :=
  match profile with
  | Jq.Object fields =>
      match Jq.field "maxCount" fields with
      | Some (Jq.Number n) => n
      | None | Some Jq.Null | Some (Jq.Bool false) =>
          match Jq.field "count" fields with
          | Some (Jq.Number n) => n
          | _ => 0%Z
          end
      | Some _ => 0%Z
      end
  | _ => 0%Z
  end.

(** The sum of the contributions of every profile of every cluster. *)
Definition capacity (contribution : Jq.json -> Z)
    (clusters : list (list (string * Jq.json))) : Z :=
  Zsum (map (fun cluster => Zsum (map contribution (profiles_of cluster))) clusters).

(** The sum of the magnitudes of what the filter takes from every
    profile of every cluster: a bound on every partial sum of [add]. *)
Definition magnitude (clusters : list (list (string * Jq.json))) : Z :=
  capacity (fun profile => Z.abs (filter_contribution profile)) clusters.

(** The state [st] after more records, lines and commands have been
    appended, with a new census and flag. *)
Definition extend (errors lines : list string) (commands : list command)
    (census : gmap string Z) (flag : bool) (st : state) : state :=
  State (global_totals st) (error_list st ++ errors) census flag
        (requested_order st) (stdout st ++ lines) (calls st ++ commands).

(** Every category has an entry in the global totals. *)
Definition totals_ready (st : state) : Prop :=
  forall category, category ∈ canonical_order ->
    is_Some (global_totals st !! category).

(** The totals after the counts of [census] have been added for the
    categories of [order], one after the other. *)
Definition add_counts (census totals : gmap string Z) (order : list string)
    : gmap string Z :=
  foldl (fun t category =>
           <[category := (default 0 (t !! category) +
                          default 0 (census !! category))%Z]> t)
        totals order.

Global Arguments add_counts : simpl never.

(** The lines of a subscription's summary and of the grand totals. *)
Definition census_lines (census : gmap string Z) (order : list string) : list string :=
  map (fun category =>
         "  " +:+ category +:+ ": " +:+
         Py.str_of_int (default 0%Z (census !! category))) order.

Definition total_lines (totals : gmap string Z) (order : list string) : list string :=
  map (fun category =>
         "Grand Total " +:+ category +:+ ": " +:+
         Py.str_of_int (default 0%Z (totals !! category))) order.

Definition enabled (a : account) : bool := String.eqb (a_state a) "Enabled".

(** The census of a subscription and the commands its processing
    starts, read off a run of [process_account] from the initial state;
    they are the same from every state ([process_account_run]). *)
Definition census_of (w : world) (a : account) : gmap string Z :=
  sub_census (snd (process_account w a initial_state)).

Definition commands_of (w : world) (a : account) : list command :=
  calls (snd (process_account w a initial_state)).

Definition errors_of (w : world) (a : account) : list string :=
  error_list (snd (process_account w a initial_state)).

Definition output_of (w : world) (a : account) : list string :=
  stdout (snd (process_account w a initial_state)).

(** The state a subscription's scans start in, but for the two lines
    printed before them. *)
Definition fresh : state := set_sub_census zero_census initial_state.

(** What step 1 reads: the number of VMs, or the exception of the command
    or of [int]. *)
Definition vm_reading (w : world) (subscription_id : string) : Py.exn + Z :=
  match az_vm_list_count_output w subscription_id with
  | inl e => inl e
  | inr output => Py.int (Py.strip output)
  end.

(** Whether the generic path of the scan counts the descriptor [r] in
    [category]. *)
Definition counts_as (category : string) (r : resource) : bool :=
  match categorize (Py.lower (r_type r)) r with
  | Category (Some c) => String.eqb c category
  | _ => false
  end.

(** The number of descriptors of a list that are counted in [category]. *)
Definition count_of (category : string) (rs : list resource) : Z :=
  Z.of_nat (length (List.filter (counts_as category) rs)).

(** The error records of the three places that append one. *)
Definition vm_error_record (a : account) (e : Py.exn) : string :=
  a_name a +:+ " (" +:+ a_id a +:+
  ") - Error executing 'az vm list'. Error: " +:+ Py.str_exn e.

Definition resource_error_record (a : account) (e : Py.exn) : string :=
  a_name a +:+ " (" +:+ a_id a +:+
  ") - Error executing 'az resource list'. Error: " +:+ Py.str_exn e.

Definition vm_errors (w : world) (a : account) : list string :=
  match vm_reading w (a_id a) with
  | inl e => [vm_error_record a e]
  | inr _ => []
  end.

Definition resource_errors (w : world) (a : account) : list string :=
  match az_resource_list_json w (a_id a) with
  | inl e => [resource_error_record a e]
  | inr rs => if existsb is_aks rs then aks_errors w (a_id a) (a_name a) else []
  end.

(** The lines the scans of a subscription print. *)
Definition vm_lines (w : world) (a : account) : list string :=
  match vm_reading w (a_id a) with
  | inl _ => ["  [ERROR] Error executing 'az vm list'."]
  | inr _ => []
  end.

Definition resource_lines (w : world) (a : account) : list string :=
  match az_resource_list_json w (a_id a) with
  | inl _ => ["  [ERROR] Error executing 'az resource list'."]
  | inr rs =>
      if existsb is_aks rs then ["  Counting POTENTIAL (Max Capacity) AKS Nodes..."]
      else []
  end.

(** The commands the resource scan of a subscription starts after the
    resource list. *)
Definition aks_commands (w : world) (a : account) : list command :=
  match az_resource_list_json w (a_id a) with
  | inl _ => []
  | inr rs => if existsb is_aks rs then [AzAksList (a_id a)] else []
  end.

(** The census holds the seven categories and nothing else. *)
Definition census_keys (m : gmap string Z) : Prop :=
  forall category, is_Some (m !! category) <-> category ∈ canonical_order.

(** The lines of the end of the report. *)
Definition grand_total_header : list string :=
  [ nl +:+ separator; "--- GRAND TOTALS ACROSS ALL ENABLED SUBSCRIPTIONS ---" ].

Definition notes_lines : list string :=
  [ separator;
    "Note: The 'Virtual Machines' total includes all states (Running, Stopped, Deallocated, etc.).";
    "Note: 'Container Hosts (AKS Clusters)' reports the total potential node count (maxCount for autoscale or count for manual).";
    "Note: 'Cloud Buckets' counts Storage Accounts (excluding Classic/ADLS Gen1).";
    "Note: 'Container Registries (ACR)' counts the total ACR found, not total container image due to Azure API limitation.";
    "" ].

Definition error_report (errors : list string) : list string :=
  match errors with
  | [] => []
  | _ => [nl +:+ separator; "Errors Encountered:"] ++ errors ++ [separator]
  end.

(** ** Sample inputs *)

(** A world with no account, no VM, no resource and an [az aks list]
    that prints nothing. *)
Definition quiet_world : world :=
  World (inr []) (fun _ => inr "0") (fun _ => inr []) (fun _ => inr "").

(** A function app, as [az resource list] reports it. *)
Definition function_app : resource :=
  Resource "Microsoft.Web/sites" (Some "functionapp,linux").

(** The node pools of the specification's example, in one cluster. *)
Definition example_pools : list Jq.json :=
  [ Jq.Object [("maxCount", Jq.Number 5); ("count", Jq.Number 3)];
    Jq.Object [("count", Jq.Number 2)];
    Jq.Object [("maxCount", Jq.Null); ("count", Jq.Number 4)] ].

Definition example_clusters : list (list (string * Jq.json)) :=
  [ [("name", Jq.Str "aks-1"); ("agentPoolProfiles", Jq.Array example_pools)] ].

(** A cluster whose only pool has a text for [maxCount]. *)
Definition text_max_clusters : list (list (string * Jq.json)) :=
  [ [("agentPoolProfiles",
      Jq.Array [Jq.Object [("maxCount", Jq.Str "5"); ("count", Jq.Number 3)]])] ].

(** A resource list with two clusters around a storage account. *)
Definition two_cluster_resources : list resource :=
  [ Resource "Microsoft.Storage/storageAccounts" (Some "StorageV2");
    Resource "Microsoft.ContainerService/managedClusters" None;
    Resource "Microsoft.Sql/servers" None;
    Resource "Microsoft.ContainerService/ManagedClusters" None ].

(** Three subscriptions, the second one disabled. *)
Definition sample_accounts : list account :=
  [ Account "Production" "sub-1" "Enabled";
    Account "Retired" "sub-2" "Disabled";
    Account "Development" "sub-3" "Enabled" ].

(** Three VMs in [sub-1] and five in [sub-3]; [sub-1] also has a storage
    account. *)
Definition two_subscription_world : world :=
  World (inr sample_accounts)
        (fun id => if String.eqb id "sub-1" then inr "3" else inr "5")
        (fun id =>
           if String.eqb id "sub-1"
           then inr [Resource "Microsoft.Storage/storageAccounts" None]
           else inr [])
        (fun _ => inr "").

(** The VM list of [sub-1] cannot be read; its resource list can. *)
Definition vm_failure_world : world :=
  World (inr sample_accounts)
        (fun id =>
           if String.eqb id "sub-1"
           then inr "ERROR: Please run 'az login' to setup account."
           else inr "5")
        (fun id =>
           if String.eqb id "sub-1"
           then inr [Resource "Microsoft.Storage/storageAccounts" None]
           else inr [])
        (fun _ => inr "").

(** Two clusters among the resources of every subscription, and an
    [az aks list] pipe that prints 11. *)
Definition cluster_world : world :=
  World (inr sample_accounts) (fun _ => inr "0")
        (fun _ => inr two_cluster_resources) (fun _ => inr "11").

(** The same, with the resources listed in the opposite order. *)
Definition reversed_cluster_world : world :=
  World (inr sample_accounts) (fun _ => inr "0")
        (fun _ => inr (rev two_cluster_resources)) (fun _ => inr "11").

(** The account list cannot be parsed. *)
Definition no_login_world : world :=
  World (inl (Py.ValueError "Expecting value: line 1 column 1 (char 0)"))
        (fun _ => inr "0") (fun _ => inr []) (fun _ => inr "").

(** * Properties *)

(** ** Facts about the string primitives *)

Module PyFacts.
Import Py.

Lemma digit_not_space c : is_ascii_digit c = true -> is_space c = false.
Proof.
  destruct c as [[] [] [] [] [] [] [] []]; vm_compute; congruence.
Qed.

Lemma isdigit_char_not_space c : isdigit_char c = true -> is_space c = false.
Proof.
  destruct c as [[] [] [] [] [] [] [] []]; vm_compute; congruence.
Qed.

Lemma digit_isdigit_char c : is_ascii_digit c = true -> isdigit_char c = true.
Proof.
  destruct c as [[] [] [] [] [] [] [] []]; vm_compute; congruence.
Qed.

Lemma digit_value_range c d : digit_value c = Some d -> (0 <= d <= 9)%Z.
Proof.
  destruct c as [[] [] [] [] [] [] [] []]; vm_compute; intros [= <-];
    split; discriminate.
Qed.

Lemma digit_not_sign c :
  is_ascii_digit c = true -> c <> "-"%char /\ c <> "+"%char.
Proof.
  destruct c as [[] [] [] [] [] [] [] []]; vm_compute; intros H;
    split; congruence.
Qed.

(** A text without whitespace is left as it is by [strip]. *)
Lemma rstrip_no_space s :
  all_chars (fun c => negb (is_space c)) s = true -> rstrip s = s.
Proof.
  induction s as [|c r IH]; simpl; [done|].
  intros [Hc Hr]%andb_prop. rewrite (IH Hr).
  destruct r; [|done]. by destruct (is_space c).
Qed.

Lemma lstrip_no_space s :
  all_chars (fun c => negb (is_space c)) s = true -> lstrip s = s.
Proof.
  destruct s as [|c r]; simpl; [done|].
  intros [Hc _]%andb_prop. by destruct (is_space c).
Qed.

Lemma strip_no_space s :
  all_chars (fun c => negb (is_space c)) s = true -> strip s = s.
Proof.
  intros H. unfold strip. rewrite (lstrip_no_space s H). by apply rstrip_no_space.
Qed.

Lemma all_chars_impl (p q : ascii -> bool) s :
  (forall c, p c = true -> q c = true) ->
  all_chars p s = true -> all_chars q s = true.
Proof.
  intros Hpq. induction s as [|c r IH]; simpl; [done|].
  intros [Hc Hr]%andb_prop. by rewrite (Hpq c Hc), (IH Hr).
Qed.

Lemma strip_isdigit s : isdigit s = true -> strip s = s.
Proof.
  intros H. apply strip_no_space. destruct s; [done|].
  revert H. apply all_chars_impl. intros c Hc.
  by rewrite (isdigit_char_not_space c Hc).
Qed.

Lemma decimal_isdigit s : decimal s = true -> isdigit s = true.
Proof.
  destruct s; [done|]. apply all_chars_impl, digit_isdigit_char.
Qed.

Lemma int_digits_decimal s acc :
  all_chars is_ascii_digit s = true ->
  int_digits acc true s = Some (decimal_value_from acc s).
Proof.
  revert acc. induction s as [|c r IH]; intros acc; simpl; [done|].
  intros [Hc Hr]%andb_prop. unfold is_ascii_digit in Hc.
  destruct (digit_value c) as [d|]; [|done]. simpl. by apply IH.
Qed.

(** [int] on a text of decimal digits is its positional value. *)
Lemma int_decimal s : decimal s = true -> int s = inr (decimal_value s).
Proof.
  intros H. unfold int.
  rewrite (strip_isdigit s (decimal_isdigit s H)).
  destruct s as [|c r]; [done|]. simpl in H.
  apply andb_prop in H as [Hc Hr].
  destruct (digit_not_sign c Hc) as [Hm Hp].
  assert (Hparse : int_digits 0 false (String c r) = Some (decimal_value (String c r))).
  { unfold decimal_value. simpl. unfold is_ascii_digit in Hc.
    destruct (digit_value c) as [d|]; [|done]. simpl. by apply int_digits_decimal. }
  destruct c as [[] [] [] [] [] [] [] []];
    try (exfalso; by (apply Hm || apply Hp)); by rewrite Hparse.
Qed.

Lemma int_digits_nonneg s acc b z :
  (0 <= acc)%Z -> int_digits acc b s = Some z -> (0 <= z)%Z.
Proof.
  revert acc b. induction s as [|c r IH]; intros acc b Hacc; simpl.
  - destruct b; [|done]. by intros [= <-].
  - destruct (digit_value c) as [d|] eqn:Hd.
    + apply IH. pose proof (digit_value_range c d Hd). lia.
    + destruct (Ascii.eqb c "_" && b); [|done]. by apply IH.
Qed.

(** [int] never yields a negative number for a text [isdigit] accepts. *)
Lemma int_isdigit_nonneg s z : isdigit s = true -> int s = inr z -> (0 <= z)%Z.
Proof.
  intros H. unfold int. rewrite (strip_isdigit s H).
  destruct s as [|c r]; [done|]. simpl in H. apply andb_prop in H as [Hc _].
  assert (Hgen : forall z', int_digits 0 false (String c r) = Some z' -> (0 <= z')%Z).
  { intros z'. by apply int_digits_nonneg. }
  destruct c as [[] [] [] [] [] [] [] []]; try (by vm_compute in Hc);
    destruct (int_digits 0 false (String _ r)) as [z'|] eqn:Hz;
    intros [= <-]; by apply Hgen.
Qed.

End PyFacts.

(** ** The decimal text of a number *)

Module DecimalFacts.
Import Py.

Lemma string_of_uint_digits d :
  all_chars is_ascii_digit (NilEmpty.string_of_uint d) = true.
Proof. induction d; simpl; try done; by rewrite IHd. Qed.

Lemma value_of_uint_acc d acc :
  decimal_value_from (Z.pos acc) (NilEmpty.string_of_uint d) =
  Z.pos (Pos.of_uint_acc d acc).
Proof.
  revert acc. induction d; intros acc; simpl; [done|..];
    rewrite <- IHd; f_equal; lia.
Qed.

Lemma value_of_uint d :
  decimal_value_from 0 (NilEmpty.string_of_uint d) = Z.of_N (Pos.of_uint d).
Proof.
  induction d; simpl; [done|done|..];
    match goal with
    | |- decimal_value_from ?z _ = _ =>
        let p := eval vm_compute in z in
        change z with p
    end; by rewrite value_of_uint_acc.
Qed.

Lemma to_uint_not_nil p : Pos.to_uint p <> Decimal.Nil.
Proof.
  intros H. pose proof (DecimalPos.Unsigned.of_to p) as Hp.
  rewrite H in Hp. discriminate.
Qed.

Lemma str_of_int_pos p :
  str_of_int (Z.pos p) = NilEmpty.string_of_uint (Pos.to_uint p).
Proof.
  unfold str_of_int. simpl. unfold NilZero.string_of_uint.
  pose proof (to_uint_not_nil p). by destruct (Pos.to_uint p).
Qed.

(** The text [str] gives for a natural number is made of decimal digits
    and denotes that number. *)
Lemma str_of_int_decimal n : (0 <= n)%Z -> decimal (str_of_int n) = true.
Proof.
  intros Hn. destruct n as [|p|p]; [done| |lia].
  rewrite str_of_int_pos. pose proof (to_uint_not_nil p) as Hnil.
  pose proof (string_of_uint_digits (Pos.to_uint p)) as Hd.
  destruct (Pos.to_uint p); try done.
Qed.

Lemma decimal_value_str_of_int n : (0 <= n)%Z -> decimal_value (str_of_int n) = n.
Proof.
  intros Hn. destruct n as [|p|p]; [done| |lia].
  rewrite str_of_int_pos. unfold decimal_value. rewrite value_of_uint.
  by rewrite DecimalPos.Unsigned.of_to.
Qed.



End DecimalFacts.

(** ** The capacity resolver *)

Section Resolver.

Variable w : world.
Variables subscription_id subscription_name : string.

Local Abbreviation resolver :=
  (get_configured_aks_node_count w subscription_id subscription_name).

Local Ltac unfold_resolver :=
  unfold get_configured_aks_node_count, try_except, bind, run, modify, lift,
    raise, ret, error_list_append, started; cbn [fst snd].

Lemma set_error_list_nil st : set_error_list (error_list st ++ []) st = st.
Proof. destruct st. unfold set_error_list. simpl. by rewrite app_nil_r. Qed.



(** The resolver never raises; its result and its error records do not
    depend on the state, and it starts one command. *)
Lemma resolver_run st :
  resolver st =
  (inr (aks_value w subscription_id subscription_name),
   set_error_list (error_list st ++ aks_errors w subscription_id subscription_name)
     (started (AzAksList subscription_id) st)).
Proof.
  unfold aks_value, aks_errors. unfold_resolver.
  destruct (aks_count_output w subscription_id) as [e|output]; simpl; [done|].
  destruct (Py.isdigit (Py.strip output)).
  - destruct (Py.int (Py.strip output)); simpl; [done|].
    f_equal. symmetry. apply (set_error_list_nil (set_calls _ st)).
  - destruct (_ || _); simpl; [|done].
    f_equal. symmetry. apply (set_error_list_nil (set_calls _ st)).
Qed.

Lemma resolver_nonneg : (0 <= aks_value w subscription_id subscription_name)%Z.
Proof.
  unfold aks_value. unfold_resolver.
  destruct (aks_count_output w subscription_id) as [e|output]; simpl; [done|].
  destruct (Py.isdigit (Py.strip output)) eqn:Hd.
  - destruct (Py.int (Py.strip output)) as [e|n] eqn:Hn; simpl; [done|].
    by apply (PyFacts.int_isdigit_nonneg (Py.strip output)).
  - by destruct (_ || _).
Qed.

Lemma resolver_errors :
  aks_errors w subscription_id subscription_name = [] \/
  (aks_value w subscription_id subscription_name = 0%Z /\
   exists detail,
     aks_errors w subscription_id subscription_name =
     [subscription_name +:+ " (" +:+ subscription_id +:+ ")" +:+ detail]).
Proof.
  unfold aks_value, aks_errors. unfold_resolver.
  destruct (aks_count_output w subscription_id) as [e|output]; simpl.
  { right. split; [done|]. eexists. reflexivity. }
  destruct (Py.isdigit (Py.strip output)).
  - destruct (Py.int (Py.strip output)); simpl; [|by left].
    right. split; [done|]. eexists. reflexivity.
  - destruct (_ || _); simpl; [by left|].
    right. split; [done|]. eexists. reflexivity.
Qed.

End Resolver.



(** ** One step of the resource scan *)

Section ScanStep.

Variable w : world.
Variables subscription_id subscription_name : string.

Local Abbreviation step :=
  (scan_resource w subscription_id subscription_name).

Local Ltac unfold_step :=
  unfold scan_resource, bind, gets, modify, ret, print; cbn [fst snd].

(** The keys of the taxonomy, by exact comparison. *)
Lemma RESOURCE_TO_CATEGORY_lookup k c :
  RESOURCE_TO_CATEGORY !! k = Some c <-> (k, c) ∈ RESOURCE_TO_CATEGORY_items.
Proof.
  unfold RESOURCE_TO_CATEGORY. symmetry. apply elem_of_list_to_map.
  by apply (bool_decide_unpack _); vm_compute.
Qed.

Lemma not_aks_step (r : resource) st :
  is_aks r = false ->
  step r st =
  match categorize (Py.lower (r_type r)) r with
  | Category (Some (String a c)) =>
      (inr tt, set_sub_census (increment (String a c) (sub_census st)) st)
  | _ => (inr tt, st)
  end.
Proof.
  unfold is_aks. intros Hr. unfold_step. rewrite Hr. simpl.
  destruct (categorize _ r) as [|[[|a c]|]]; simpl; try done.
Qed.

End ScanStep.

Lemma increment_lookup_eq category (m : gmap string Z) :
  increment category m !! category = Some (default 0 (m !! category) + 1)%Z.
Proof. unfold increment. by rewrite lookup_insert_eq. Qed.

Lemma increment_lookup_ne category c (m : gmap string Z) :
  c <> category -> increment category m !! c = m !! c.
Proof. intros H. unfold increment. by rewrite lookup_insert_ne. Qed.

(** The state after a descriptor has been counted in [category]. *)
Lemma counted_census category st :
  sub_census (set_sub_census (increment category (sub_census st)) st) !! category =
    Some (default 0 (sub_census st !! category) + 1)%Z /\
  forall c, c <> category ->
    sub_census (set_sub_census (increment category (sub_census st)) st) !! c =
    sub_census st !! c.
Proof.
  simpl. split; [apply increment_lookup_eq|].
  intros c Hc. by apply increment_lookup_ne.
Qed.


(** C9.  A [microsoft.web/sites] descriptor whose kind is the empty text
    is treated as one without a kind: the kind is not true, the step
    leaves the state as it was. *)
Theorem C9_empty_kind_dropped
    (w : world) (subscription_id subscription_name resource_type : string)
    (st : state) :
  Py.lower resource_type = SITES_TYPE ->
  truthy (Some EmptyString) = false /\
  scan_resource w subscription_id subscription_name
    (Resource resource_type (Some EmptyString)) st = (inr tt, st) /\
  scan_resource w subscription_id subscription_name
    (Resource resource_type (Some EmptyString)) st =
  scan_resource w subscription_id subscription_name
    (Resource resource_type None) st.
Proof.
  intros Ht. split; [done|].
  assert (forall k, is_aks (Resource resource_type k) = false) as Haks
    by (intros k; unfold is_aks; simpl; by rewrite Ht).
  rewrite !(not_aks_step w _ _ _ st (Haks _)). simpl. rewrite Ht.
  unfold categorize. change (String.eqb SITES_TYPE SITES_TYPE) with true.
  by simpl.
Qed.

(** C7.  A descriptor whose lowercased type is the VM type or the
    excluded workspace type leaves the whole state, and so every
    category count, as it was. *)
Theorem C7_vm_and_workspace_skipped
    (w : world) (subscription_id subscription_name : string)
    (r : resource) (st : state) :
  Py.lower (r_type r) = VM_TYPE \/ Py.lower (r_type r) = SYNAPSE_TYPE ->
  scan_resource w subscription_id subscription_name r st = (inr tt, st).
Proof.
  intros Ht.
  assert (Haks : is_aks r = false)
    by (unfold is_aks; by destruct Ht as [-> | ->]).
  rewrite (not_aks_step w _ _ r st Haks). unfold categorize.
  by destruct Ht as [-> | ->].
Qed.

(** C6, as stated, fails: [microsoft.web/sites] is not a key of the
    table, yet a function app of that type is counted: Serverless
    Functions goes from 0 to 1. *)
Lemma C6_counterexample :
  let st := set_sub_census zero_census initial_state in
  let st' := snd (scan_resource quiet_world "sub-1" "Production" function_app st) in
  RESOURCE_TO_CATEGORY !! Py.lower (r_type function_app) = None /\
  sub_census st !! SERVERLESS = Some 0%Z /\
  sub_census st' !! SERVERLESS = Some 1%Z.
Proof. by vm_compute. Qed.

(** C6, amended.  The scan step reads the type of a descriptor through
    its lowercased form only, so two types that differ in letter case are
    treated alike (the two spellings of the storage-account type are both
    Cloud Buckets); the table is read by exact comparison of the
    lowercased type with its keys (a prefix of a key and an extension of
    a key are not keys); a descriptor whose lowercased type is not a key
    and is not [microsoft.web/sites] leaves the whole state as it was:
    no count changes and no error record is appended; a descriptor whose
    lowercased type is a key other than the cluster type and the VM type
    adds one to the category of that key. *)
Theorem C6_taxonomy_lookup
    (w : world) (subscription_id subscription_name : string) (st : state) :
  (forall r1 r2,
     Py.lower (r_type r1) = Py.lower (r_type r2) -> r_kind r1 = r_kind r2 ->
     scan_resource w subscription_id subscription_name r1 st =
     scan_resource w subscription_id subscription_name r2 st) /\
  (RESOURCE_TO_CATEGORY !! Py.lower "Microsoft.Storage/storageAccounts" = Some BUCKETS /\
   RESOURCE_TO_CATEGORY !! Py.lower "microsoft.storage/storageaccounts" = Some BUCKETS) /\
  (forall k c,
     RESOURCE_TO_CATEGORY !! k = Some c <-> (k, c) ∈ RESOURCE_TO_CATEGORY_items) /\
  (RESOURCE_TO_CATEGORY !! "microsoft.storage" = None /\
   RESOURCE_TO_CATEGORY !! "microsoft.storage/storageaccounts/blobservices" = None) /\
  (forall r,
     RESOURCE_TO_CATEGORY !! Py.lower (r_type r) = None ->
     Py.lower (r_type r) <> SITES_TYPE ->
     scan_resource w subscription_id subscription_name r st = (inr tt, st)) /\
  (forall r category,
     RESOURCE_TO_CATEGORY !! Py.lower (r_type r) = Some category ->
     Py.lower (r_type r) <> AKS_TYPE ->
     Py.lower (r_type r) <> VM_TYPE ->
     scan_resource w subscription_id subscription_name r st =
     (inr tt, set_sub_census (increment category (sub_census st)) st)).
Proof.
  split; [|split; [|split; [|split; [|split]]]].
  - intros r1 r2 Ht Hk. unfold scan_resource, categorize. by rewrite Ht, Hk.
  - by vm_compute.
  - apply RESOURCE_TO_CATEGORY_lookup.
  - by vm_compute.
  - intros r Hnone Hsites.
    assert (Haks : is_aks r = false).
    { unfold is_aks. apply String.eqb_neq. intros Heq. by rewrite Heq in Hnone. }
    rewrite (not_aks_step w _ _ r st Haks). unfold categorize.
    apply String.eqb_neq in Hsites. rewrite Hsites, Hnone.
    by destruct (_ || _).
  - intros r category Hsome Haks Hvm.
    assert (Haks' : is_aks r = false) by (by apply String.eqb_neq).
    rewrite (not_aks_step w _ _ r st Haks'). unfold categorize.
    assert (String.eqb (Py.lower (r_type r)) SITES_TYPE = false) as ->.
    { apply String.eqb_neq. intros Heq. by rewrite Heq in Hsome. }
    assert (String.eqb (Py.lower (r_type r)) SYNAPSE_TYPE = false) as ->.
    { apply String.eqb_neq. intros Heq. by rewrite Heq in Hsome. }
    apply String.eqb_neq in Hvm. rewrite Hvm, Hsome. simpl.
    apply RESOURCE_TO_CATEGORY_lookup in Hsome.
    unfold RESOURCE_TO_CATEGORY_items in Hsome.
    repeat (apply elem_of_cons in Hsome as [[= _ ->]|Hsome]; [reflexivity|]).
    by apply elem_of_nil in Hsome.
Qed.

(** ** The filter of the capacity resolver *)

Section Filter.
Import Jq.

Lemma Zsum_app (l1 l2 : list Z) : Zsum (l1 ++ l2) = (Zsum l1 + Zsum l2)%Z.
Proof. induction l1 as [|x l1 IH]; simpl; [done|]. unfold Zsum in *. simpl. lia. Qed.

Lemma Zsum_abs (l : list Z) : (Z.abs (Zsum l) <= Zsum (map Z.abs l))%Z.
Proof. induction l as [|x l IH]; simpl; [done|]. unfold Zsum in *. simpl. lia. Qed.

Lemma numbers_app (l1 l2 : list json) : numbers (l1 ++ l2) = numbers l1 ++ numbers l2.
Proof. unfold numbers. apply omap_app. Qed.

(** The numbers among the outputs of [.maxCount? // .count?]: the
    contribution of the profile, or none, and then the contribution is 0. *)
Lemma profile_count_numbers (profile : json) :
  numbers (profile_count profile) = [filter_contribution profile] \/
  (numbers (profile_count profile) = [] /\ filter_contribution profile = 0%Z).
Proof.
  destruct profile as [| | | | |fields]; try (by right).
  unfold profile_count, index_opt, index, filter_contribution.
  destruct (field "maxCount" fields) as [[|[]|n|t|items|o]|];
    destruct (field "count" fields) as [[|[]|m|t'|items'|o']|];
    cbn; (by left) || (by right).
Qed.

Lemma profile_count_sums (profile : json) :
  Zsum (numbers (profile_count profile)) = filter_contribution profile /\
  Zsum (map Z.abs (numbers (profile_count profile))) =
    Z.abs (filter_contribution profile).
Proof.
  destruct (profile_count_numbers profile) as [-> | [-> ->]];
    unfold Zsum; simpl; lia.
Qed.

Lemma numbers_profiles (profiles : list json) :
  Zsum (numbers (concat (map profile_count profiles))) =
    Zsum (map filter_contribution profiles) /\
  Zsum (map Z.abs (numbers (concat (map profile_count profiles)))) =
    Zsum (map (fun profile => Z.abs (filter_contribution profile)) profiles).
Proof.
  induction profiles as [|p l [IH1 IH2]]; simpl; [done|].
  destruct (profile_count_sums p) as [H1 H2].
  rewrite numbers_app, map_app, !Zsum_app, H1, H2, IH1, IH2.
  unfold Zsum. simpl. lia.
Qed.

(** On clusters that are objects the filter does not fail; the numbers
    it collects add up to the capacity, and their magnitudes to the
    magnitude. *)
Lemma collect_clusters (clusters : list (list (string * json))) :
  exists counts,
    collect cluster_counts (map Object clusters) = inr counts /\
    Zsum (numbers counts) = capacity filter_contribution clusters /\
    Zsum (map Z.abs (numbers counts)) = magnitude clusters.
Proof.
  induction clusters as [|c l (counts & Hc & Hs & Ha)]; simpl.
  - by exists [].
  - rewrite Hc. eexists. split; [reflexivity|].
    destruct (numbers_profiles (profiles_of c)) as [H1 H2].
    rewrite numbers_app, map_app, !Zsum_app, Hs, Ha.
    unfold magnitude, capacity. simpl. unfold profiles_of in H1, H2.
    split; f_equal; assumption.
Qed.

(** Within the exact range [add] is the sum. *)
Lemma add_from_exact (acc : Z) (values : list Z) :
  (Z.abs acc + Zsum (map Z.abs values) <= 2 ^ 53)%Z ->
  add_from acc values = Some (acc + Zsum values)%Z.
Proof.
  revert acc. induction values as [|v values IH]; intros acc Hbound.
  - simpl. f_equal. unfold Zsum. simpl. lia.
  - pose proof (Zsum_abs values) as Habs.
    assert (Hsum : Zsum (map Z.abs (v :: values)) =
                   (Z.abs v + Zsum (map Z.abs values))%Z) by done.
    assert (Hrest : (0 <= Zsum (map Z.abs values))%Z) by lia.
    rewrite Hsum in Hbound. simpl.
    assert (exact v = true) as ->.
    { unfold exact. apply andb_true_intro. split; apply Z.leb_le; lia. }
    assert (exact (acc + v) = true) as ->.
    { unfold exact. apply andb_true_intro. split; apply Z.leb_le; lia. }
    simpl. rewrite IH; [|lia]. f_equal. unfold Zsum. simpl. lia.
Qed.

Lemma add_exact (values : list Z) :
  (Zsum (map Z.abs values) <= 2 ^ 53)%Z ->
  add values =
  Some (match values with
        | [] => Null
        | _ => Number (Zsum values)
        end).
Proof.
  destruct values as [|v values]; [done|]. intros Hbound.
  pose proof (Zsum_abs values) as Habs.
  assert (Hsum : Zsum (map Z.abs (v :: values)) =
                 (Z.abs v + Zsum (map Z.abs values))%Z) by done.
  rewrite Hsum in Hbound. unfold add.
  assert (exact v = true) as ->.
  { unfold exact. apply andb_true_intro. split; apply Z.leb_le; lia. }
  rewrite add_from_exact; [|lia]. done.
Qed.

(** What the pipe prints for clusters that are objects, within the exact
    range. *)
Lemma aks_pipeline_clusters (clusters : list (list (string * json))) :
  (magnitude clusters <= 2 ^ 53)%Z ->
  aks_pipeline (Some (Array (map Object clusters))) = Some "null" /\
    capacity filter_contribution clusters = 0%Z \/
  aks_pipeline (Some (Array (map Object clusters))) =
    Some (Py.str_of_int (capacity filter_contribution clusters)).
Proof.
  intros Hbound. unfold aks_pipeline, sum_filter. simpl.
  destruct (collect_clusters clusters) as (counts & -> & Hs & Ha).
  rewrite add_exact; [|by rewrite Ha].
  pose proof (Zsum_abs (numbers counts)) as Habs.
  destruct (numbers counts) as [|x l] eqn:Hn.
  - left. by rewrite <- Hs.
  - right. rewrite Hs. simpl.
    assert (exact (capacity filter_contribution clusters) = true) as ->; [|done].
    unfold exact. apply andb_true_intro. split; apply Z.leb_le; lia.
Qed.

End Filter.

(** The resolver on the text of a natural number, and on [null]. *)
Lemma resolver_on_number (w : world) (subscription_id subscription_name : string)
    (n : Z) (st : state) :
  (0 <= n)%Z ->
  aks_count_output w subscription_id = inr (Py.str_of_int n) ->
  get_configured_aks_node_count w subscription_id subscription_name st =
  (inr n, started (AzAksList subscription_id) st).
Proof.
  intros Hn Hout. pose proof (DecimalFacts.str_of_int_decimal n Hn) as Hd.
  unfold get_configured_aks_node_count, try_except, bind, run, modify, lift,
    raise, ret, started. cbn [fst snd]. rewrite Hout. simpl.
  rewrite (PyFacts.strip_isdigit _ (PyFacts.decimal_isdigit _ Hd)).
  rewrite (PyFacts.decimal_isdigit _ Hd), (PyFacts.int_decimal _ Hd).
  by rewrite DecimalFacts.decimal_value_str_of_int.
Qed.

Lemma resolver_on_null (w : world) (subscription_id subscription_name : string)
    (st : state) :
  aks_count_output w subscription_id = inr "null" ->
  get_configured_aks_node_count w subscription_id subscription_name st =
  (inr 0%Z, started (AzAksList subscription_id) st).
Proof.
  intros Hout.
  unfold get_configured_aks_node_count, try_except, bind, run, modify, lift,
    raise, ret, started. cbn [fst snd]. by rewrite Hout.
Qed.

(** C1, as stated, fails: a [maxCount] that is present but is not a
    number (here a text) is taken by the filter and then dropped, so the
    [count] beside it is never used.  For the one pool
    [{maxCount: '5', count: 3}] the pipe prints [null] and the resolver
    returns 0, where the claim has 3. *)
Lemma C1_counterexample :
  aks_pipeline (Some (Jq.Array (map Jq.Object text_max_clusters))) = Some "null" /\
  get_configured_aks_node_count (with_aks_output quiet_world (inr "null"))
    "sub-1" "Production" initial_state =
    (inr 0%Z, started (AzAksList "sub-1") initial_state) /\
  capacity spec_contribution text_max_clusters = 3%Z.
Proof. split; [reflexivity|]. split; reflexivity. Qed.

(** C1, amended.  Take clusters whose node-pool counts are integers, and
    let the magnitudes of what the filter takes from the profiles add up
    to at most [2 ^ 53], so that the sum of [jq], which adds doubles, is
    exact and is printed in plain digits; let the sum be not negative.
    Then the pipe prints a text, and wherever [az aks list] piped to the
    filter gives that text the resolver returns the sum, over every
    node-pool profile of every cluster, of what the filter takes from the
    profile ([maxCount] when it is present and neither [null] nor
    [false], counted if it is a number and as nothing otherwise; else
    [count] if it is a number; else nothing), and appends no error
    record.  On profiles whose [maxCount] is absent, [null] or a number,
    that is the contribution the specification describes.  For the node
    pools of the example the result is 11. *)
Theorem C1_capacity_sum
    (clusters : list (list (string * Jq.json)))
    (subscription_id subscription_name : string) :
  (magnitude clusters <= 2 ^ 53)%Z ->
  (0 <= capacity filter_contribution clusters)%Z ->
  (exists output,
     aks_pipeline (Some (Jq.Array (map Jq.Object clusters))) = Some output /\
     forall (w : world) (st : state),
       aks_count_output w subscription_id = inr output ->
       get_configured_aks_node_count w subscription_id subscription_name st =
       (inr (capacity filter_contribution clusters),
        started (AzAksList subscription_id) st)) /\
  (forall fields,
     match Jq.field "maxCount" fields with
     | None | Some Jq.Null | Some (Jq.Number _) => True
     | _ => False
     end ->
     filter_contribution (Jq.Object fields) = spec_contribution (Jq.Object fields)) /\
  capacity filter_contribution example_clusters = 11%Z.
Proof.
  intros Hbound Hpos. split; [|split].
  - destruct (aks_pipeline_clusters clusters Hbound) as [[Hout Hz] | Hout].
    + exists "null". split; [exact Hout|]. intros w st Hw. rewrite Hz.
      by apply resolver_on_null.
    + eexists. split; [exact Hout|]. intros w st Hw.
      by apply resolver_on_number.
  - intros fields Hm. simpl.
    by destruct (Jq.field "maxCount" fields) as [[|[]|n|t|items|o]|].
  - reflexivity.
Qed.

Lemma C1_capacity_sum_witness :
  (magnitude example_clusters <= 2 ^ 53)%Z /\
  (0 <= capacity filter_contribution example_clusters)%Z /\
  exists output,
    aks_pipeline (Some (Jq.Array (map Jq.Object example_clusters))) = Some output /\
    get_configured_aks_node_count (with_aks_output quiet_world (inr output))
      "sub-1" "Production" initial_state =
    (inr 11%Z, started (AzAksList "sub-1") initial_state).
Proof.
  assert (H1 : (magnitude example_clusters <= 2 ^ 53)%Z)
    by (vm_compute; discriminate).
  assert (H2 : (0 <= capacity filter_contribution example_clusters)%Z)
    by (vm_compute; discriminate).
  split; [exact H1|]. split; [exact H2|].
  destruct (C1_capacity_sum example_clusters "sub-1" "Production" H1 H2)
    as ((output & Hout & Hrun) & _).
  exists output. split; [exact Hout|].
  exact (Hrun (with_aks_output quiet_world (inr output)) initial_state eq_refl).
Defined.

(** ** The statements at sample inputs *)



Lemma C9_empty_kind_dropped_witness :
  Py.lower "Microsoft.Web/sites" = SITES_TYPE /\
  scan_resource quiet_world "sub-1" "Production"
    (Resource "Microsoft.Web/sites" (Some EmptyString))
    (set_sub_census zero_census initial_state) =
  (inr tt, set_sub_census zero_census initial_state).
Proof.
  split; [reflexivity|].
  exact (proj1 (proj2 (C9_empty_kind_dropped quiet_world "sub-1" "Production"
                         "Microsoft.Web/sites"
                         (set_sub_census zero_census initial_state) eq_refl))).
Defined.

Lemma C7_vm_and_workspace_skipped_witness :
  Py.lower (r_type (Resource "Microsoft.Compute/virtualMachines" None)) = VM_TYPE /\
  scan_resource quiet_world "sub-1" "Production"
    (Resource "Microsoft.Compute/virtualMachines" None)
    (set_sub_census zero_census initial_state) =
  (inr tt, set_sub_census zero_census initial_state).
Proof.
  split; [reflexivity|].
  exact (C7_vm_and_workspace_skipped quiet_world "sub-1" "Production"
           (Resource "Microsoft.Compute/virtualMachines" None)
           (set_sub_census zero_census initial_state) (or_introl eq_refl)).
Defined.

(** ** The scan loop and the cluster flag *)

Section ScanLoop.

Variable w : world.
Variables subscription_id subscription_name : string.

Local Abbreviation step :=
  (scan_resource w subscription_id subscription_name).

Lemma for_each_app {A} (l1 l2 : list A) (body : A -> M unit) st :
  for_each (l1 ++ l2) body st =
  match for_each l1 body st with
  | (inr _, st') => for_each l2 body st'
  | (inl e, st') => (inl e, st')
  end.
Proof.
  revert st. induction l1 as [|x l1 IH]; intros st; simpl; [done|].
  unfold bind. destruct (body x st) as [[e|[]] st']; [done|]. apply IH.
Qed.

Lemma set_sub_census_twice m m' st :
  set_sub_census m (set_sub_census m' st) = set_sub_census m st.
Proof. done. Qed.

Lemma set_sub_census_same st : set_sub_census (sub_census st) st = st.
Proof. by destruct st. Qed.

(** The generic path never counts a Container Host. *)
Lemma categorize_not_hosts (r : resource) category :
  is_aks r = false ->
  categorize (Py.lower (r_type r)) r = Category (Some category) ->
  category <> CONTAINER_HOSTS.
Proof.
  unfold is_aks, categorize. intros Haks.
  destruct (String.eqb _ SITES_TYPE).
  { destruct (_ && _); [|done]. by intros [= <-]. }
  destruct (_ || _); [done|].
  destruct (RESOURCE_TO_CATEGORY !! _) as [c|] eqn:Hc; [|done].
  intros [= <-]. apply RESOURCE_TO_CATEGORY_lookup in Hc.
  apply String.eqb_neq in Haks. unfold RESOURCE_TO_CATEGORY_items in Hc.
  repeat (apply elem_of_cons in Hc as [[= Ht ->]|Hc]; [done|]).
  by apply elem_of_nil in Hc.
Qed.

(** A descriptor that is not a cluster changes the census only, and not
    its Container Hosts entry. *)
Lemma not_aks_step_census (r : resource) st :
  is_aks r = false ->
  exists census,
    step r st = (inr tt, set_sub_census census st) /\
    census !! CONTAINER_HOSTS = sub_census st !! CONTAINER_HOSTS.
Proof.
  intros Haks. rewrite (not_aks_step w _ _ r st Haks).
  destruct (categorize _ r) as [|[[|a c]|]] eqn:Hc;
    try (exists (sub_census st); by rewrite set_sub_census_same).
  eexists. split; [reflexivity|].
  apply increment_lookup_ne. symmetry.
  by apply (categorize_not_hosts r _ Haks).
Qed.

(** A cluster met while the flag is set is skipped. *)
Lemma aks_step_later (r : resource) st :
  is_aks r = true -> aks_counted_flag st = true -> step r st = (inr tt, st).
Proof.
  unfold is_aks, scan_resource, bind, gets. intros -> ->. done.
Qed.

(** The first cluster: one message, one call of the resolver, whose
    result is stored, and the flag is set. *)
Lemma aks_step_first (r : resource) st :
  is_aks r = true -> aks_counted_flag st = false ->
  step r st =
  (inr tt,
   set_aks_counted_flag true
     (set_sub_census
        (<[CONTAINER_HOSTS := aks_value w subscription_id subscription_name]>
           (sub_census st))
        (set_error_list
           (error_list st ++ aks_errors w subscription_id subscription_name)
           (started (AzAksList subscription_id)
              (set_stdout
                 (stdout st ++ ["  Counting POTENTIAL (Max Capacity) AKS Nodes..."])
                 st))))).
Proof.
  unfold is_aks, scan_resource, bind, gets, print, modify. intros -> ->.
  cbn [andb negb fst snd]. by rewrite resolver_run.
Qed.

(** A run over descriptors none of which is a cluster. *)
Lemma scan_without_aks (rs : list resource) st :
  forallb (fun r => negb (is_aks r)) rs = true ->
  exists census,
    for_each rs step st = (inr tt, set_sub_census census st) /\
    census !! CONTAINER_HOSTS = sub_census st !! CONTAINER_HOSTS.
Proof.
  revert st. induction rs as [|r rs IH]; intros st; simpl.
  - exists (sub_census st). by rewrite set_sub_census_same.
  - intros [Hr Hrs]%andb_prop. apply negb_true_iff in Hr.
    destruct (not_aks_step_census r st Hr) as (c1 & Hstep & Hc1).
    unfold bind. rewrite Hstep.
    destruct (IH (set_sub_census c1 st) Hrs) as (c2 & Hrun & Hc2).
    exists c2. rewrite Hrun, set_sub_census_twice. split; [done|].
    by rewrite Hc2.
Qed.

(** A run that starts with the flag set: the clusters in it have no
    effect, and nothing but the census changes. *)
Lemma scan_flagged (rs : list resource) st :
  aks_counted_flag st = true ->
  exists census,
    for_each rs step st = (inr tt, set_sub_census census st) /\
    census !! CONTAINER_HOSTS = sub_census st !! CONTAINER_HOSTS /\
    for_each rs step st =
    for_each (List.filter (fun r => negb (is_aks r)) rs) step st.
Proof.
  revert st. induction rs as [|r rs IH]; intros st Hflag; simpl.
  - exists (sub_census st). by rewrite set_sub_census_same.
  - destruct (is_aks r) eqn:Hr; simpl.
    + unfold bind. rewrite (aks_step_later r st Hr Hflag). by apply IH.
    + destruct (not_aks_step_census r st Hr) as (c1 & Hstep & Hc1).
      unfold bind. rewrite Hstep.
      destruct (IH (set_sub_census c1 st) Hflag) as (c2 & Hrun & Hc2 & Hf).
      exists c2. rewrite <- Hf, Hrun, set_sub_census_twice.
      split; [done|]. split; [|done]. by rewrite Hc2.
Qed.

End ScanLoop.

(** C2.  In the scan of one subscription that starts with the flag
    unset, let [first] be the first descriptor whose lowercased type is
    the cluster type.  The scan does not raise; it starts exactly one
    command, the resolver's, so the resolver is invoked once; the
    Container Hosts count at the end is the number the resolver returned;
    and the scan ends in the same state as the scan of the list without
    the later cluster descriptors, which therefore invoke nothing and
    contribute nothing.  A cluster descriptor met when the flag is set
    leaves the state as it is. *)
Theorem C2_resolver_once
    (w : world) (subscription_id subscription_name : string)
    (before : list resource) (first : resource) (after : list resource)
    (st : state) :
  aks_counted_flag st = false ->
  forallb (fun r => negb (is_aks r)) before = true ->
  is_aks first = true ->
  let scan rs :=
    for_each rs (scan_resource w subscription_id subscription_name) st in
  fst (scan (before ++ first :: after)) = inr tt /\
  calls (snd (scan (before ++ first :: after))) =
    calls st ++ [AzAksList subscription_id] /\
  sub_census (snd (scan (before ++ first :: after))) !! CONTAINER_HOSTS =
    Some (aks_value w subscription_id subscription_name) /\
  scan (before ++ first :: after) =
    scan (before ++ first :: List.filter (fun r => negb (is_aks r)) after) /\
  (forall r st',
     is_aks r = true -> aks_counted_flag st' = true ->
     scan_resource w subscription_id subscription_name r st' = (inr tt, st')).
Proof.
  intros Hflag Hbefore Hfirst scan.
  destruct (scan_without_aks w subscription_id subscription_name before st Hbefore)
    as (c1 & Hrun1 & Hc1).
  assert (Hflag1 : aks_counted_flag (set_sub_census c1 st) = false) by done.
  pose proof (aks_step_first w subscription_id subscription_name first
                (set_sub_census c1 st) Hfirst Hflag1) as Hstep.
  set (st2 := set_aks_counted_flag true _) in Hstep.
  assert (Hflag2 : aks_counted_flag st2 = true) by done.
  destruct (scan_flagged w subscription_id subscription_name after st2 Hflag2)
    as (c3 & Hrun3 & Hc3 & Hfilter).
  assert (Hscan : forall l,
            scan (before ++ first :: l) =
            for_each l (scan_resource w subscription_id subscription_name) st2).
  { intros l. unfold scan. rewrite for_each_app, Hrun1. simpl.
    unfold bind. by rewrite Hstep. }
  rewrite !Hscan, Hrun3. split; [done|]. split; [done|]. split.
  - simpl. rewrite Hc3. simpl. by rewrite lookup_insert_eq.
  - split; [by rewrite <- Hfilter, Hrun3|].
    apply aks_step_later.
Qed.

Lemma C2_resolver_once_witness :
  let scan :=
    for_each two_cluster_resources
      (scan_resource (with_aks_output quiet_world (inr "11")) "sub-1" "Production")
      (set_sub_census zero_census initial_state) in
  calls (snd scan) = [AzAksList "sub-1"] /\
  sub_census (snd scan) !! CONTAINER_HOSTS = Some 11%Z.
Proof.
  pose proof (C2_resolver_once (with_aks_output quiet_world (inr "11"))
                "sub-1" "Production"
                [Resource "Microsoft.Storage/storageAccounts" (Some "StorageV2")]
                (Resource "Microsoft.ContainerService/managedClusters" None)
                [Resource "Microsoft.Sql/servers" None;
                 Resource "Microsoft.ContainerService/ManagedClusters" None]
                (set_sub_census zero_census initial_state)
                eq_refl eq_refl eq_refl) as (_ & Hcalls & Hhosts & _).
  split; [exact Hcalls | exact Hhosts].
Defined.

(** ** The effect of a scan does not depend on the rest of the state *)

Section Effects.

Variable w : world.
Variables subscription_id subscription_name : string.

Local Abbreviation step :=
  (scan_resource w subscription_id subscription_name).

Lemma extend_nothing st :
  extend [] [] [] (sub_census st) (aks_counted_flag st) st = st.
Proof. destruct st. unfold extend. simpl. by rewrite !app_nil_r. Qed.

Lemma extend_extend e1 o1 k1 c1 f1 e2 o2 k2 c2 f2 st :
  extend e2 o2 k2 c2 f2 (extend e1 o1 k1 c1 f1 st) =
  extend (e1 ++ e2) (o1 ++ o2) (k1 ++ k2) c2 f2 st.
Proof. unfold extend. simpl. by rewrite !app_assoc. Qed.

Lemma step_effect (r : resource) census flag :
  exists errors lines commands census' flag',
    forall st, sub_census st = census -> aks_counted_flag st = flag ->
      step r st = (inr tt, extend errors lines commands census' flag' st).
Proof.
  destruct (is_aks r) eqn:Hr.
  - destruct flag.
    + exists [], [], [], census, true. intros st <- Hf.
      rewrite (aks_step_later w _ _ r st Hr Hf), <- Hf. by rewrite extend_nothing.
    + exists (aks_errors w subscription_id subscription_name),
        ["  Counting POTENTIAL (Max Capacity) AKS Nodes..."],
        [AzAksList subscription_id],
        (<[CONTAINER_HOSTS := aks_value w subscription_id subscription_name]> census),
        true.
      intros st <- Hf. by rewrite (aks_step_first w _ _ r st Hr Hf).
  - exists [], [], [].
    exists (match categorize (Py.lower (r_type r)) r with
            | Category (Some (String a c)) => increment (String a c) census
            | _ => census
            end), flag.
    intros st <- <-. rewrite (not_aks_step w _ _ r st Hr).
    destruct (categorize _ r) as [|[[|a c]|]]; try (by rewrite extend_nothing).
    destruct st. unfold extend, set_sub_census. simpl. by rewrite !app_nil_r.
Qed.

Lemma scan_effect (rs : list resource) census flag :
  exists errors lines commands census' flag',
    forall st, sub_census st = census -> aks_counted_flag st = flag ->
      for_each rs step st = (inr tt, extend errors lines commands census' flag' st).
Proof.
  revert census flag. induction rs as [|r rs IH]; intros census flag.
  - exists [], [], [], census, flag. intros st <- <-. simpl.
    by rewrite extend_nothing.
  - destruct (step_effect r census flag) as (e1 & o1 & k1 & c1 & f1 & Hstep).
    destruct (IH c1 f1) as (e2 & o2 & k2 & c2 & f2 & Hrun).
    exists (e1 ++ e2), (o1 ++ o2), (k1 ++ k2), c2, f2. intros st Hc Hf.
    simpl. unfold bind. rewrite (Hstep st Hc Hf).
    rewrite (Hrun (extend e1 o1 k1 c1 f1 st) eq_refl eq_refl).
    apply f_equal, extend_extend.
Qed.

(** Step 1 never raises: a failure of the command or of [int] becomes an
    error record and a line; the census changes only for a positive
    count. *)
Lemma scan_vms_effect census flag :
  exists errors lines census',
    (forall st, sub_census st = census -> aks_counted_flag st = flag ->
       scan_vms w subscription_id subscription_name st =
       (inr tt, extend errors lines [AzVmList subscription_id] census' flag st)) /\
    (forall e,
       (az_vm_list_count_output w subscription_id = inl e \/
        exists output,
          az_vm_list_count_output w subscription_id = inr output /\
          Py.int (Py.strip output) = inl e) ->
       census' = census /\
       errors = [subscription_name +:+ " (" +:+ subscription_id +:+
                 ") - Error executing 'az vm list'. Error: " +:+ Py.str_exn e]).
Proof.
  pose (record := fun e : Py.exn =>
    subscription_name +:+ " (" +:+ subscription_id +:+
    ") - Error executing 'az vm list'. Error: " +:+ Py.str_exn e).
  destruct (az_vm_list_count_output w subscription_id) as [e|output] eqn:Hout.
  - exists [record e], ["  [ERROR] Error executing 'az vm list'."], census. split.
    + intros st <- <-.
      unfold scan_vms, try_except, bind, run, modify, lift, raise, ret,
        error_list_append, print. cbn [fst snd]. by rewrite Hout.
    + intros e' [[= <-] | (o & [=] & _)]. done.
  - destruct (Py.int (Py.strip output)) as [e|n] eqn:Hint.
    + exists [record e], ["  [ERROR] Error executing 'az vm list'."], census. split.
      * intros st <- <-.
        unfold scan_vms, try_except, bind, run, modify, lift, raise, ret,
          error_list_append, print. cbn [fst snd]. rewrite Hout. simpl.
        by rewrite Hint.
      * intros e' [[=] | (o & [= <-] & He)]. rewrite Hint in He.
        by injection He as <-.
    + exists [], [], (if (0 <? n)%Z then <[VMS := n]> census else census). split.
      * intros st <- <-.
        unfold scan_vms, try_except, bind, run, modify, lift, raise, ret,
          error_list_append, print. cbn [fst snd]. rewrite Hout. simpl.
        rewrite Hint. simpl.
        destruct (0 <? n)%Z; destruct st; unfold extend; simpl;
          by rewrite !app_nil_r.
      * intros e' [[=] | (o & [= <-] & He)]. by rewrite Hint in He.
Qed.

(** Step 2 never raises either, and starts with the resource list. *)
Lemma scan_resources_effect census flag :
  exists errors lines commands census' flag',
    forall st, sub_census st = census -> aks_counted_flag st = flag ->
      scan_resources w subscription_id subscription_name st =
      (inr tt,
       extend errors lines (AzResourceList subscription_id :: commands)
         census' flag' st).
Proof.
  unfold scan_resources, try_except, bind, run, modify, lift, raise, ret,
    error_list_append, print. cbn [fst snd].
  destruct (az_resource_list_json w subscription_id) as [e|rs].
  - eexists _, _, [], census, flag. intros st <- <-. simpl. unfold extend.
    reflexivity.
  - destruct (scan_effect rs census flag) as (e1 & o1 & k1 & c1 & f1 & Hrun).
    exists e1, o1, k1, c1, f1. intros st Hc Hf. simpl.
    rewrite (Hrun (set_calls _ st) Hc Hf).
    unfold extend. simpl. by rewrite <- app_assoc.
Qed.

End Effects.

(** ** The resource scan leaves the VM count alone *)

Section VmCount.

Variable w : world.
Variables subscription_id subscription_name : string.

Local Abbreviation step :=
  (scan_resource w subscription_id subscription_name).

Lemma categorize_not_vms (r : resource) category :
  categorize (Py.lower (r_type r)) r = Category (Some category) ->
  category <> VMS.
Proof.
  unfold categorize.
  destruct (String.eqb _ SITES_TYPE).
  { destruct (_ && _); [|done]. by intros [= <-]. }
  destruct (String.eqb _ VM_TYPE) eqn:Hvm; [done|].
  destruct (String.eqb _ SYNAPSE_TYPE); [done|]. simpl.
  destruct (RESOURCE_TO_CATEGORY !! _) as [c|] eqn:Hc; [|done].
  intros [= <-]. apply RESOURCE_TO_CATEGORY_lookup in Hc.
  apply String.eqb_neq in Hvm. unfold RESOURCE_TO_CATEGORY_items in Hc.
  repeat (apply elem_of_cons in Hc as [[= Ht ->]|Hc]; [done|]).
  by apply elem_of_nil in Hc.
Qed.

Lemma step_keeps_vms (r : resource) st :
  sub_census (snd (step r st)) !! VMS = sub_census st !! VMS.
Proof.
  destruct (is_aks r) eqn:Hr.
  - destruct (aks_counted_flag st) eqn:Hf.
    + by rewrite (aks_step_later w _ _ r st Hr Hf).
    + rewrite (aks_step_first w _ _ r st Hr Hf). simpl.
      by apply lookup_insert_ne.
  - rewrite (not_aks_step w _ _ r st Hr).
    destruct (categorize _ r) as [|[[|a c]|]] eqn:Hc; try done.
    simpl. apply increment_lookup_ne. symmetry.
    by apply (categorize_not_vms r).
Qed.

Lemma step_returns (r : resource) st : fst (step r st) = inr tt.
Proof.
  destruct (step_effect w subscription_id subscription_name r
              (sub_census st) (aks_counted_flag st))
    as (e & o & k & c & f & H).
  by rewrite (H st eq_refl eq_refl).
Qed.

Lemma scan_keeps_vms (rs : list resource) st :
  sub_census (snd (for_each rs step st)) !! VMS = sub_census st !! VMS.
Proof.
  revert st. induction rs as [|r rs IH]; intros st; simpl; [done|].
  unfold bind. pose proof (step_returns r st) as Hret.
  pose proof (step_keeps_vms r st) as Hvm.
  destruct (step r st) as [[e|[]] st1]; simpl in *; [done|].
  by rewrite IH.
Qed.

Lemma scan_resources_keeps_vms st :
  sub_census (snd (scan_resources w subscription_id subscription_name st)) !! VMS =
  sub_census st !! VMS.
Proof.
  unfold scan_resources, try_except, bind, run, modify, lift, raise, ret,
    error_list_append, print. cbn [fst snd].
  destruct (az_resource_list_json w subscription_id) as [e|rs]; simpl; [done|].
  pose proof (scan_keeps_vms rs (set_calls (calls st ++ [AzResourceList subscription_id]) st))
    as Hvm.
  destruct (scan_effect w subscription_id subscription_name rs
              (sub_census st) (aks_counted_flag st))
    as (e & o & k & c & f & H).
  rewrite (H (set_calls _ st) eq_refl eq_refl) in Hvm |- *. exact Hvm.
Qed.

End VmCount.

(** ** Printing the summary and adding to the totals *)

Section Aggregation.

Lemma add_counts_lookup_other census totals order c :
  c ∉ order -> add_counts census totals order !! c = totals !! c.
Proof.
  revert totals. induction order as [|k order IH]; intros totals Hc; [done|].
  apply not_elem_of_cons in Hc as [Hck Hc]. unfold add_counts. simpl.
  fold (add_counts census
          (<[k := (default 0 (totals !! k) + default 0 (census !! k))%Z]> totals) order).
  rewrite (IH _ Hc). by apply lookup_insert_ne.
Qed.

Lemma add_counts_lookup census totals order c :
  NoDup order -> c ∈ order ->
  add_counts census totals order !! c =
  Some (default 0 (totals !! c) + default 0 (census !! c))%Z.
Proof.
  revert totals. induction order as [|k order IH]; intros totals Hnd Hc.
  - by apply elem_of_nil in Hc.
  - apply NoDup_cons in Hnd as [Hk Hnd]. unfold add_counts. simpl.
    fold (add_counts census
            (<[k := (default 0 (totals !! k) + default 0 (census !! k))%Z]> totals) order).
    apply elem_of_cons in Hc as [-> | Hc].
    + rewrite (add_counts_lookup_other _ _ _ _ Hk). by rewrite lookup_insert_eq.
    + rewrite (IH _ Hnd Hc). rewrite lookup_insert_ne; [done|].
      intros ->. by apply Hk.
Qed.

Lemma canonical_order_NoDup : NoDup canonical_order.
Proof. by apply (bool_decide_unpack _); vm_compute. Qed.

Lemma bind_run {A B} (m : M A) (k : A -> M B) a st st' :
  m st = (inr a, st') -> bind m k st = k a st'.
Proof. intros H. unfold bind. by rewrite H. Qed.

Lemma report_category_run category total st :
  global_totals st !! category = Some total ->
  report_category category st =
  (inr tt,
   State (<[category := (total + default 0 (sub_census st !! category))%Z]>
            (global_totals st))
         (error_list st) (sub_census st) (aks_counted_flag st)
         (requested_order st)
         (stdout st ++ ["  " +:+ category +:+ ": " +:+
                        Py.str_of_int (default 0%Z (sub_census st !! category))])
         (calls st)).
Proof.
  intros H. unfold report_category, add_to_global_totals, bind, gets, print,
    modify. simpl. by rewrite H.
Qed.

(** The loop of step 3 over any list of categories that have a total. *)
Lemma accumulate_run (order : list string) st :
  (forall category, category ∈ order -> is_Some (global_totals st !! category)) ->
  for_each order report_category st =
  (inr tt,
   State (add_counts (sub_census st) (global_totals st) order)
         (error_list st) (sub_census st) (aks_counted_flag st)
         (requested_order st) (stdout st ++ census_lines (sub_census st) order)
         (calls st)).
Proof.
  revert st. induction order as [|k order IH]; intros st Hready.
  - simpl. unfold ret. destruct st. simpl. by rewrite app_nil_r.
  - destruct (Hready k) as [total Htotal]; [by left|].
    simpl. rewrite (bind_run _ _ _ _ _ (report_category_run k total st Htotal)).
    rewrite IH.
    + unfold add_counts. simpl. rewrite Htotal. simpl. by rewrite <- app_assoc.
    + intros c Hc. simpl. apply lookup_insert_is_Some'. right.
      apply Hready. by right.
Qed.

Lemma add_counts_ready census totals order c :
  is_Some (totals !! c) -> is_Some (add_counts census totals order !! c).
Proof.
  revert totals. induction order as [|k order IH]; intros totals H; [done|].
  unfold add_counts. simpl. apply IH. apply lookup_insert_is_Some'. by right.
Qed.

(** Step 3 as a whole. *)
Lemma report_subscription_run st :
  totals_ready st ->
  report_subscription st =
  (inr tt,
   State (add_counts (sub_census st) (global_totals st) canonical_order)
         (error_list st) (sub_census st) (aks_counted_flag st)
         (Some canonical_order)
         (stdout st ++
          [nl +:+ "--- Subscription Resource Census ---"] ++
          census_lines (sub_census st) canonical_order ++ [separator])
         (calls st)).
Proof.
  intros Hready. unfold report_subscription.
  erewrite bind_run; [|reflexivity].
  erewrite bind_run; [|reflexivity].
  erewrite bind_run; [|apply accumulate_run; exact Hready].
  unfold print, modify. simpl. by rewrite <- !app_assoc.
Qed.

Lemma grand_total_line_run category total st :
  global_totals st !! category = Some total ->
  grand_total_line category st =
  (inr tt,
   set_stdout (stdout st ++ ["Grand Total " +:+ category +:+ ": " +:+
                             Py.str_of_int total]) st).
Proof.
  intros H. unfold grand_total_line, bind, gets. cbn [fst snd]. by rewrite H.
Qed.

(** The loop of step 4 over any list of categories that have a total. *)
Lemma grand_total_lines_run (order : list string) st :
  (forall category, category ∈ order -> is_Some (global_totals st !! category)) ->
  for_each order grand_total_line st =
  (inr tt, set_stdout (stdout st ++ total_lines (global_totals st) order) st).
Proof.
  revert st. induction order as [|k order IH]; intros st Hready.
  - simpl. unfold ret. destruct st. unfold set_stdout. simpl. by rewrite app_nil_r.
  - destruct (Hready k) as [total Htotal]; [by left|].
    simpl. rewrite (bind_run _ _ _ _ _ (grand_total_line_run k total st Htotal)).
    rewrite IH.
    + simpl. rewrite Htotal. simpl. unfold set_stdout. simpl.
      by rewrite <- app_assoc.
    + intros c Hc. simpl. apply Hready. by right.
Qed.

End Aggregation.

(** ** One subscription *)

Section Subscription.

Variable w : world.

Lemma initial_totals_ready : totals_ready initial_state.
Proof.
  intros c Hc. unfold canonical_order in Hc.
  repeat (apply elem_of_cons in Hc as [-> | Hc]; [by eexists|]).
  by apply elem_of_nil in Hc.
Qed.

(** The processing of an enabled subscription never raises.  What it
    appends and the census it ends with do not depend on the state it
    starts in; it runs the VM count and then the resource list, whatever
    the VM count did; when the VM count fails, its error record is
    appended and the Virtual Machines count stays 0. *)
Lemma process_account_run (a : account) :
  enabled a = true ->
  exists errors lines commands census flag,
    (forall st, totals_ready st ->
       process_account w a st =
       (inr tt,
        State (add_counts census (global_totals st) canonical_order)
              (error_list st ++ errors) census flag (Some canonical_order)
              (stdout st ++ lines ++ census_lines census canonical_order ++ [separator])
              (calls st ++ AzVmList (a_id a) :: AzResourceList (a_id a) :: commands))) /\
    (forall e,
       (az_vm_list_count_output w (a_id a) = inl e \/
        exists output,
          az_vm_list_count_output w (a_id a) = inr output /\
          Py.int (Py.strip output) = inl e) ->
       census !! VMS = Some 0%Z /\
       exists rest,
         errors = (a_name a +:+ " (" +:+ a_id a +:+
                   ") - Error executing 'az vm list'. Error: " +:+ Py.str_exn e) :: rest).
Proof.
  intros Hen. unfold enabled in Hen.
  destruct (scan_vms_effect w (a_id a) (a_name a) zero_census false)
    as (e1 & o1 & c1 & Hvm & Hfail).
  destruct (scan_resources_effect w (a_id a) (a_name a) c1 false)
    as (e2 & o2 & k2 & c2 & f2 & Hres).
  exists (e1 ++ e2),
    ([separator; "Processing Account: " +:+ a_name a +:+ " (" +:+ a_id a +:+ ")"]
       ++ o1 ++ o2 ++ [nl +:+ "--- Subscription Resource Census ---"]),
    k2, c2, f2.
  split.
  - intros st Hready. unfold process_account. rewrite Hen. cbn [negb].
    erewrite bind_run; [|reflexivity].
    erewrite bind_run; [|reflexivity].
    erewrite bind_run; [|reflexivity].
    erewrite bind_run; [|reflexivity].
    erewrite bind_run; [|apply Hvm; reflexivity].
    erewrite bind_run; [|apply Hres; reflexivity].
    rewrite report_subscription_run; [|exact Hready].
    unfold extend. simpl. f_equal. f_equal.
    + by rewrite app_assoc.
    + by rewrite <- !app_assoc.
    + by rewrite <- !app_assoc.
  - intros e He. destruct (Hfail e He) as [-> ->]. split; [|by eexists].
    pose proof (scan_resources_keeps_vms w (a_id a) (a_name a)
                  (set_sub_census zero_census initial_state)) as Hkeep.
    rewrite (Hres (set_sub_census zero_census initial_state) eq_refl eq_refl) in Hkeep.
    exact Hkeep.
Qed.

(** A subscription that is not enabled is skipped. *)
Lemma process_account_skipped (a : account) st :
  enabled a = false -> process_account w a st = (inr tt, st).
Proof. unfold enabled, process_account. by intros ->. Qed.

End Subscription.

(** ** All subscriptions *)

Section Run.

Variable w : world.

Lemma process_account_state (a : account) st :
  enabled a = true -> totals_ready st ->
  exists flag lines,
    process_account w a st =
    (inr tt,
     State (add_counts (census_of w a) (global_totals st) canonical_order)
           (error_list st ++ errors_of w a) (census_of w a) flag
           (Some canonical_order)
           (stdout st ++ lines ++
            census_lines (census_of w a) canonical_order ++ [separator])
           (calls st ++ commands_of w a)).
Proof.
  intros Hen Hready.
  destruct (process_account_run w a Hen) as (e & o & k & c & f & Hrun & _).
  unfold census_of, errors_of, commands_of.
  rewrite (Hrun initial_state initial_totals_ready). simpl.
  exists f, o. by apply Hrun.
Qed.

Lemma commands_of_enabled (a : account) :
  enabled a = true ->
  exists rest,
    commands_of w a = AzVmList (a_id a) :: AzResourceList (a_id a) :: rest.
Proof.
  intros Hen.
  destruct (process_account_run w a Hen) as (e & o & k & c & f & Hrun & _).
  unfold commands_of. rewrite (Hrun initial_state initial_totals_ready). simpl.
  by eexists.
Qed.

Lemma skipped_account (a : account) :
  enabled a = false -> commands_of w a = [] /\ errors_of w a = [].
Proof.
  intros Hen. unfold commands_of, errors_of.
  by rewrite (process_account_skipped w a initial_state Hen).
Qed.

(** The count of one category, summed over the enabled subscriptions. *)
Lemma process_accounts_run (accounts : list account) st :
  totals_ready st ->
  exists st',
    process_accounts w accounts st = (inr tt, st') /\
    totals_ready st' /\
    (forall category, category ∈ canonical_order ->
       global_totals st' !! category =
       Some (default 0 (global_totals st !! category) +
             Zsum (map (fun a => default 0 (census_of w a !! category))
                       (List.filter enabled accounts)))%Z) /\
    (forall category, category ∉ canonical_order ->
       global_totals st' !! category = global_totals st !! category) /\
    calls st' = calls st ++ concat (map (commands_of w) accounts) /\
    error_list st' = error_list st ++ concat (map (errors_of w) accounts) /\
    requested_order st' =
      (if existsb enabled accounts then Some canonical_order
       else requested_order st).
Proof.
  revert st. induction accounts as [|a accounts IH]; intros st Hready.
  - exists st. simpl. rewrite !app_nil_r. repeat split; try done.
    intros c Hc. destruct (Hready c Hc) as [v Hv]. rewrite Hv. simpl.
    f_equal. lia.
  - unfold process_accounts in *. simpl.
    destruct (enabled a) eqn:Hen.
    + destruct (process_account_state a st Hen Hready) as (f & o & Hrun).
      rewrite (bind_run _ _ _ _ _ Hrun).
      match goal with
      | |- context [for_each accounts _ ?s] => set (st1 := s)
      end.
      assert (Hready1 : totals_ready st1).
      { intros c Hc. simpl. apply add_counts_ready. by apply Hready. }
      destruct (IH st1 Hready1) as (st' & Hrest & Hr' & Htot & Hoth & Hcalls & Herr & Hord).
      exists st'. split; [done|]. split; [done|]. repeat split.
      * intros c Hc. rewrite (Htot c Hc). simpl.
        rewrite (add_counts_lookup _ _ _ _ canonical_order_NoDup Hc). simpl.
        f_equal. unfold Zsum. lia.
      * intros c Hc. rewrite (Hoth c Hc). simpl.
        by apply add_counts_lookup_other.
      * rewrite Hcalls. simpl. by rewrite <- app_assoc.
      * rewrite Herr. simpl. by rewrite <- app_assoc.
      * rewrite Hord. simpl. by destruct (existsb enabled accounts).
    + rewrite (bind_run _ _ _ _ _ (process_account_skipped w a st Hen)).
      destruct (IH st Hready) as (st' & Hrest & Hr' & Htot & Hoth & Hcalls & Herr & Hord).
      destruct (skipped_account a Hen) as [-> ->].
      exists st'. by repeat split.
Qed.

End Run.

(** ** What the resource scan counts *)

Section ScanCount.

Variable w : world.
Variables subscription_id subscription_name : string.

Local Abbreviation step :=
  (scan_resource w subscription_id subscription_name).

(** Every category the generic path yields is one of the seven. *)
Lemma categorize_canonical (r : resource) category :
  categorize (Py.lower (r_type r)) r = Category (Some category) ->
  category ∈ canonical_order.
Proof.
  unfold categorize.
  destruct (String.eqb _ SITES_TYPE).
  { destruct (_ && _); [|done]. intros [= <-].
    by apply (bool_decide_unpack _); vm_compute. }
  destruct (_ || _); [done|].
  destruct (RESOURCE_TO_CATEGORY !! _) as [c|] eqn:Hc; [|done].
  intros [= <-]. apply RESOURCE_TO_CATEGORY_lookup in Hc.
  unfold RESOURCE_TO_CATEGORY_items in Hc.
  repeat (apply elem_of_cons in Hc as [[= _ ->]|Hc];
          [by apply (bool_decide_unpack _); vm_compute|]).
  by apply elem_of_nil in Hc.
Qed.

Lemma empty_not_canonical : EmptyString ∉ canonical_order.
Proof. by apply (bool_decide_unpack _); vm_compute. Qed.

Lemma categorize_aks (r : resource) :
  is_aks r = true ->
  categorize (Py.lower (r_type r)) r = Category (Some CONTAINER_HOSTS).
Proof.
  unfold is_aks. intros Hr. apply String.eqb_eq in Hr. rewrite Hr.
  by vm_compute.
Qed.

Lemma counts_as_aks (r : resource) c :
  is_aks r = true -> c <> CONTAINER_HOSTS -> counts_as c r = false.
Proof.
  intros Hr Hc. unfold counts_as. rewrite (categorize_aks r Hr).
  apply String.eqb_neq. congruence.
Qed.

(** One step adds one to the category the descriptor is counted in, and
    nothing to the other ones but Container Hosts. *)
Lemma step_count (r : resource) st c :
  c <> CONTAINER_HOSTS ->
  default 0%Z (sub_census (snd (step r st)) !! c) =
  (default 0 (sub_census st !! c) + (if counts_as c r then 1 else 0))%Z.
Proof.
  intros Hc. destruct (is_aks r) eqn:Hr.
  - rewrite (counts_as_aks r c Hr Hc). destruct (aks_counted_flag st) eqn:Hf.
    + rewrite (aks_step_later w _ _ r st Hr Hf). simpl. lia.
    + rewrite (aks_step_first w _ _ r st Hr Hf). simpl.
      rewrite lookup_insert_ne; [lia|done].
  - rewrite (not_aks_step w _ _ r st Hr). unfold counts_as.
    destruct (categorize _ r) as [|[[|a s]|]] eqn:Hcat.
    + simpl. lia.
    + apply categorize_canonical in Hcat. by apply empty_not_canonical in Hcat.
    + cbn [snd sub_census set_sub_census].
      destruct (String.eqb (String a s) c) eqn:He.
      * apply String.eqb_eq in He as <-. rewrite increment_lookup_eq. simpl. lia.
      * apply String.eqb_neq in He. rewrite increment_lookup_ne; [lia|congruence].
    + simpl. lia.
Qed.

Lemma count_of_cons c (r : resource) (rs : list resource) :
  count_of c (r :: rs) = ((if counts_as c r then 1 else 0) + count_of c rs)%Z.
Proof.
  unfold count_of. simpl. destruct (counts_as c r); simpl length; lia.
Qed.

(** The scan adds to a category the number of descriptors counted in it. *)
Lemma scan_count (rs : list resource) st c :
  c <> CONTAINER_HOSTS ->
  default 0%Z (sub_census (snd (for_each rs step st)) !! c) =
  (default 0 (sub_census st !! c) + count_of c rs)%Z.
Proof.
  intros Hc. revert st. induction rs as [|r rs IH]; intros st.
  - simpl. unfold count_of. simpl. lia.
  - rewrite count_of_cons. simpl. unfold bind.
    pose proof (step_returns w subscription_id subscription_name r st) as Hret.
    pose proof (step_count r st c Hc) as Hstep.
    destruct (step r st) as [[e|[]] st1]; simpl in Hret, Hstep; [done|].
    rewrite IH, Hstep. lia.
Qed.

(** A scan that starts with the flag unset: the resolver runs when there
    is a cluster, once, and nothing else is appended. *)
Lemma scan_trace (rs : list resource) st :
  aks_counted_flag st = false ->
  exists census,
    for_each rs step st =
    (inr tt,
     if existsb is_aks rs then
       extend (aks_errors w subscription_id subscription_name)
         ["  Counting POTENTIAL (Max Capacity) AKS Nodes..."]
         [AzAksList subscription_id] census true st
     else set_sub_census census st) /\
    census !! CONTAINER_HOSTS =
      (if existsb is_aks rs
       then Some (aks_value w subscription_id subscription_name)
       else sub_census st !! CONTAINER_HOSTS).
Proof.
  revert st. induction rs as [|r rs IH]; intros st Hflag.
  - exists (sub_census st). simpl. by rewrite set_sub_census_same.
  - simpl. destruct (is_aks r) eqn:Hr; simpl.
    + unfold bind.
      rewrite (aks_step_first w subscription_id subscription_name r st Hr Hflag).
      match goal with
      | |- context [for_each rs _ ?s] => set (st2 := s)
      end.
      destruct (scan_flagged w subscription_id subscription_name rs st2 eq_refl)
        as (c & Hrun & Hc & _).
      exists c. rewrite Hrun. split; [done|].
      rewrite Hc. simpl. by rewrite lookup_insert_eq.
    + destruct (not_aks_step_census w subscription_id subscription_name r st Hr)
        as (c1 & Hstep & Hc1).
      unfold bind. rewrite Hstep.
      destruct (IH (set_sub_census c1 st) Hflag) as (c2 & Hrun & Hc2).
      exists c2. rewrite Hrun. split.
      * by destruct (existsb is_aks rs).
      * rewrite Hc2. simpl. by rewrite Hc1.
Qed.

Lemma zero_census_lookup c : c ∈ canonical_order -> zero_census !! c = Some 0%Z.
Proof.
  intros Hc. unfold canonical_order in Hc.
  repeat (apply elem_of_cons in Hc as [-> | Hc]; [reflexivity|]).
  by apply elem_of_nil in Hc.
Qed.

Lemma census_keys_zero : census_keys zero_census.
Proof.
  intros c. split.
  - intros [v Hv]. unfold zero_census in Hv.
    apply elem_of_list_to_map_2 in Hv.
    repeat (apply elem_of_cons in Hv as [[= -> _]|Hv];
            [by apply (bool_decide_unpack _); vm_compute|]).
    by apply elem_of_nil in Hv.
  - intros Hc. rewrite (zero_census_lookup c Hc). by eexists.
Qed.

Lemma census_keys_insert k v (m : gmap string Z) :
  k ∈ canonical_order -> census_keys m -> census_keys (<[k := v]> m).
Proof.
  intros Hk Hm c. rewrite lookup_insert_is_Some. split.
  - intros [<- | [_ H]]; [done | by apply Hm].
  - intros Hc. destruct (decide (k = c)) as [->|Hne]; [by left|].
    right. split; [done | by apply Hm].
Qed.

(** The scan keeps the keys of the census. *)
Lemma step_keys (r : resource) st :
  census_keys (sub_census st) -> census_keys (sub_census (snd (step r st))).
Proof.
  intros Hkeys. destruct (is_aks r) eqn:Hr.
  - destruct (aks_counted_flag st) eqn:Hf.
    + by rewrite (aks_step_later w _ _ r st Hr Hf).
    + rewrite (aks_step_first w _ _ r st Hr Hf). simpl.
      apply census_keys_insert; [|done].
      by apply (bool_decide_unpack _); vm_compute.
  - rewrite (not_aks_step w _ _ r st Hr).
    destruct (categorize _ r) as [|[[|a s]|]] eqn:Hcat; try done.
    cbn [snd sub_census set_sub_census]. unfold increment.
    apply census_keys_insert; [|done]. by apply (categorize_canonical r).
Qed.

Lemma scan_keys (rs : list resource) st :
  census_keys (sub_census st) ->
  census_keys (sub_census (snd (for_each rs step st))).
Proof.
  revert st. induction rs as [|r rs IH]; intros st Hkeys; [done|].
  simpl. unfold bind.
  pose proof (step_returns w subscription_id subscription_name r st) as Hret.
  pose proof (step_keys r st Hkeys) as Hstep.
  destruct (step r st) as [[e|[]] st1]; simpl in Hret, Hstep; [done|].
  by apply IH.
Qed.

End ScanCount.

(** ** The census, the records and the commands of a subscription *)

Section Census.

Variable w : world.

(** Step 1, whatever the command gives. *)
Lemma scan_vms_run (a : account) st :
  scan_vms w (a_id a) (a_name a) st =
  (inr tt,
   extend (vm_errors w a) (vm_lines w a) [AzVmList (a_id a)]
     (match vm_reading w (a_id a) with
      | inr n => if (0 <? n)%Z then <[VMS := n]> (sub_census st) else sub_census st
      | inl _ => sub_census st
      end)
     (aks_counted_flag st) st).
Proof.
  unfold vm_errors, vm_lines, vm_reading, vm_error_record.
  unfold scan_vms, try_except, bind, run, modify, lift, raise, ret,
    error_list_append, print. cbn [fst snd].
  destruct (az_vm_list_count_output w (a_id a)) as [e|output]; simpl; [done|].
  destruct (Py.int (Py.strip output)) as [e|n]; simpl; [done|].
  destruct (0 <? n)%Z; destruct st; unfold extend; simpl; by rewrite !app_nil_r.
Qed.

(** Step 2 when the resource list is read: the scan, which never raises. *)
Lemma scan_resources_ok (a : account) (rs : list resource) st :
  az_resource_list_json w (a_id a) = inr rs ->
  scan_resources w (a_id a) (a_name a) st =
  for_each rs (scan_resource w (a_id a) (a_name a))
    (started (AzResourceList (a_id a)) st).
Proof.
  intros Hrs.
  destruct (scan_effect w (a_id a) (a_name a) rs (sub_census st) (aks_counted_flag st))
    as (e & o & k & c & f & H).
  unfold scan_resources, try_except, bind, run, modify, lift, raise, ret, started.
  cbn [fst snd]. rewrite Hrs. simpl.
  by rewrite (H (set_calls _ st) eq_refl eq_refl).
Qed.

(** Step 2 when the resource list cannot be read. *)
Lemma scan_resources_failed (a : account) (e : Py.exn) st :
  az_resource_list_json w (a_id a) = inl e ->
  scan_resources w (a_id a) (a_name a) st =
  (inr tt,
   extend [resource_error_record a e]
     ["  [ERROR] Error executing 'az resource list'."]
     [AzResourceList (a_id a)] (sub_census st) (aks_counted_flag st) st).
Proof.
  intros Hrs.
  unfold scan_resources, try_except, bind, run, modify, lift, raise, ret,
    error_list_append, print, resource_error_record.
  cbn [fst snd]. by rewrite Hrs.
Qed.

(** The run of an enabled subscription from the initial state, with what
    its census holds. *)
Lemma enabled_run (a : account) :
  enabled a = true ->
  exists census flag,
    process_account w a initial_state =
    (inr tt,
     State (add_counts census zero_census canonical_order)
           (vm_errors w a ++ resource_errors w a) census flag (Some canonical_order)
           ([separator;
             "Processing Account: " +:+ a_name a +:+ " (" +:+ a_id a +:+ ")"] ++
            vm_lines w a ++ resource_lines w a ++
            [nl +:+ "--- Subscription Resource Census ---"] ++
            census_lines census canonical_order ++ [separator])
           (AzVmList (a_id a) :: AzResourceList (a_id a) :: aks_commands w a)) /\
    census_keys census /\
    census !! VMS =
      Some (match vm_reading w (a_id a) with
            | inr n => Z.max 0 n
            | inl _ => 0%Z
            end) /\
    census !! CONTAINER_HOSTS =
      Some (match az_resource_list_json w (a_id a) with
            | inr rs =>
                if existsb is_aks rs then aks_value w (a_id a) (a_name a) else 0%Z
            | inl _ => 0%Z
            end) /\
    (forall c, c ∈ canonical_order -> c <> VMS -> c <> CONTAINER_HOSTS ->
       census !! c =
       Some (match az_resource_list_json w (a_id a) with
             | inr rs => count_of c rs
             | inl _ => 0%Z
             end)).
Proof.
  intros Hen. unfold enabled in Hen.
  pose (c1 := match vm_reading w (a_id a) with
              | inr n => if (0 <? n)%Z then <[VMS := n]> zero_census else zero_census
              | inl _ => zero_census
              end).
  assert (Hk1 : census_keys c1).
  { unfold c1. destruct (vm_reading w (a_id a)) as [e|n]; [apply census_keys_zero|].
    destruct (0 <? n)%Z; [|apply census_keys_zero].
    apply census_keys_insert; [|apply census_keys_zero].
    by apply (bool_decide_unpack _); vm_compute. }
  assert (Hvm1 : c1 !! VMS =
                 Some (match vm_reading w (a_id a) with
                       | inr n => Z.max 0 n
                       | inl _ => 0%Z
                       end)).
  { unfold c1. destruct (vm_reading w (a_id a)) as [e|n]; [done|].
    destruct (0 <? n)%Z eqn:Hn.
    - rewrite lookup_insert_eq. f_equal. apply Z.ltb_lt in Hn. lia.
    - apply Z.ltb_ge in Hn. replace (Z.max 0 n) with 0%Z by lia. done. }
  assert (Ho1 : forall c, c ∈ canonical_order -> c <> VMS -> c1 !! c = Some 0%Z).
  { intros c Hc Hne. unfold c1.
    destruct (vm_reading w (a_id a)) as [e|n]; [by apply zero_census_lookup|].
    destruct (0 <? n)%Z; [rewrite lookup_insert_ne; [|done]|];
      by apply zero_census_lookup. }
  set (st0 := State zero_census [] zero_census false None
                [separator;
                 "Processing Account: " +:+ a_name a +:+ " (" +:+ a_id a +:+ ")"] []).
  set (st1 := extend (vm_errors w a) (vm_lines w a) [AzVmList (a_id a)] c1 false st0).
  assert (Hproc : process_account w a initial_state =
                  (scan_resources w (a_id a) (a_name a) ;; report_subscription) st1).
  { unfold process_account. rewrite Hen. cbn [negb].
    do 4 (erewrite bind_run; [|reflexivity]).
    erewrite bind_run; [|apply scan_vms_run]. reflexivity. }
  assert (Hhosts : CONTAINER_HOSTS ∈ canonical_order)
    by (by apply (bool_decide_unpack _); vm_compute).
  assert (Hne : CONTAINER_HOSTS <> VMS) by done.
  destruct (az_resource_list_json w (a_id a)) as [e|rs] eqn:Hrs.
  - exists c1, false. rewrite Hproc.
    erewrite bind_run; [|by apply scan_resources_failed].
    rewrite report_subscription_run; [|exact initial_totals_ready].
    unfold resource_errors, resource_lines, aks_commands. rewrite Hrs.
    split; [unfold st1, st0, extend; simpl; by rewrite <- ?app_assoc|].
    split; [done|]. split; [done|].
    split; [by apply Ho1|]. intros c Hc Hv _. by apply Ho1.
  - set (st1' := started (AzResourceList (a_id a)) st1).
    destruct (scan_trace w (a_id a) (a_name a) rs st1' eq_refl) as (c2 & Hscan & Hch).
    pose proof (scan_keys w (a_id a) (a_name a) rs st1' Hk1) as Hk2.
    pose proof (scan_keeps_vms w (a_id a) (a_name a) rs st1') as Hv2.
    pose proof (fun c Hc => scan_count w (a_id a) (a_name a) rs st1' c Hc) as Hcount.
    rewrite Hscan in Hk2, Hv2. setoid_rewrite Hscan in Hcount.
    change (sub_census st1') with c1 in Hv2, Hcount, Hch.
    exists c2, (existsb is_aks rs). rewrite Hproc.
    erewrite bind_run; [|rewrite (scan_resources_ok a rs st1 Hrs); exact Hscan].
    rewrite report_subscription_run;
      [|destruct (existsb is_aks rs); exact initial_totals_ready].
    unfold resource_errors, resource_lines, aks_commands. rewrite Hrs.
    destruct (existsb is_aks rs); cbn [snd] in Hk2, Hv2, Hcount;
      (split;
       [unfold st1', started, st1, st0, extend, set_sub_census, set_calls; simpl;
        by rewrite <- ?app_assoc, ?app_nil_r|]);
      (split; [done|]); (split; [by rewrite <- Hvm1|]);
      (split; [rewrite Hch; try done; by apply Ho1|]);
      intros c Hc Hv Hh; specialize (Hcount c Hh); rewrite (Ho1 c Hc Hv) in Hcount;
      destruct (Hk2 c) as [_ Hsome]; destruct (Hsome Hc) as [v Hv'];
      simpl in Hv'; simpl in Hcount; rewrite Hv' in Hcount |- *;
      simpl in Hcount; f_equal; lia.
Qed.

(** What a run of an enabled subscription from the initial state shows. *)
Lemma enabled_observed (a : account) :
  enabled a = true ->
  errors_of w a = vm_errors w a ++ resource_errors w a /\
  commands_of w a = AzVmList (a_id a) :: AzResourceList (a_id a) :: aks_commands w a /\
  output_of w a =
    [separator; "Processing Account: " +:+ a_name a +:+ " (" +:+ a_id a +:+ ")"] ++
    vm_lines w a ++ resource_lines w a ++
    [nl +:+ "--- Subscription Resource Census ---"] ++
    census_lines (census_of w a) canonical_order ++ [separator].
Proof.
  intros Hen. destruct (enabled_run a Hen) as (c & f & Hrun & _).
  unfold errors_of, commands_of, output_of, census_of. by rewrite Hrun.
Qed.

Lemma enabled_census (a : account) :
  enabled a = true ->
  census_keys (census_of w a) /\
  census_of w a !! VMS =
    Some (match vm_reading w (a_id a) with
          | inr n => Z.max 0 n
          | inl _ => 0%Z
          end) /\
  census_of w a !! CONTAINER_HOSTS =
    Some (match az_resource_list_json w (a_id a) with
          | inr rs =>
              if existsb is_aks rs then aks_value w (a_id a) (a_name a) else 0%Z
          | inl _ => 0%Z
          end) /\
  (forall c, c ∈ canonical_order -> c <> VMS -> c <> CONTAINER_HOSTS ->
     census_of w a !! c =
     Some (match az_resource_list_json w (a_id a) with
           | inr rs => count_of c rs
           | inl _ => 0%Z
           end)).
Proof.
  intros Hen. destruct (enabled_run a Hen) as (c & f & Hrun & Hfacts).
  unfold census_of. rewrite Hrun. exact Hfacts.
Qed.

(** A subscription that is not enabled shows nothing. *)
Lemma skipped_observed (a : account) :
  enabled a = false ->
  errors_of w a = [] /\ commands_of w a = [] /\ output_of w a = [] /\
  census_of w a = ∅.
Proof.
  intros Hen. unfold errors_of, commands_of, output_of, census_of.
  by rewrite (process_account_skipped w a initial_state Hen).
Qed.

(** The run of an enabled subscription from any state whose totals hold
    the seven categories. *)
Lemma process_account_from (a : account) st :
  enabled a = true -> totals_ready st ->
  exists flag,
    process_account w a st =
    (inr tt,
     State (add_counts (census_of w a) (global_totals st) canonical_order)
           (error_list st ++ errors_of w a) (census_of w a) flag
           (Some canonical_order) (stdout st ++ output_of w a)
           (calls st ++ commands_of w a)).
Proof.
  intros Hen Hready.
  destruct (process_account_run w a Hen) as (e & o & k & c & f & Hrun & _).
  unfold census_of, errors_of, commands_of, output_of.
  rewrite (Hrun initial_state initial_totals_ready). simpl.
  exists f. by apply Hrun.
Qed.

(** The loop over the accounts never raises; its lines are those of the
    subscriptions, one after the other. *)
Lemma process_accounts_stdout (accounts : list account) st :
  totals_ready st ->
  stdout (snd (process_accounts w accounts st)) =
  stdout st ++ concat (map (output_of w) accounts).
Proof.
  revert st. induction accounts as [|a accounts IH]; intros st Hready.
  - simpl. by rewrite app_nil_r.
  - unfold process_accounts in *. simpl.
    destruct (enabled a) eqn:Hen.
    + destruct (process_account_from a st Hen Hready) as (f & Hrun).
      rewrite (bind_run _ _ _ _ _ Hrun). rewrite IH.
      * simpl. by rewrite <- app_assoc.
      * intros c Hc. simpl. apply add_counts_ready. by apply Hready.
    + rewrite (bind_run _ _ _ _ _ (process_account_skipped w a st Hen)).
      destruct (skipped_observed a Hen) as (_ & _ & -> & _). by apply IH.
Qed.

(** The loop over the accounts is the loop over the enabled ones. *)
Lemma process_accounts_enabled (accounts : list account) st :
  process_accounts w accounts st =
  process_accounts w (List.filter enabled accounts) st.
Proof.
  unfold process_accounts. revert st.
  induction accounts as [|a accounts IH]; intros st; [done|].
  simpl. destruct (enabled a) eqn:Hen.
  - simpl. unfold bind. destruct (process_account w a st) as [[e|[]] st1]; [done|].
    apply IH.
  - rewrite (bind_run _ _ _ _ _ (process_account_skipped w a st Hen)). apply IH.
Qed.

End Census.

(** ** The end of the report and the whole run *)

Section Report.

Variable w : world.

Lemma for_each_print (lines : list string) st :
  for_each lines print st = (inr tt, set_stdout (stdout st ++ lines) st).
Proof.
  revert st. induction lines as [|line lines IH]; intros st.
  - simpl. unfold ret. destruct st. unfold set_stdout. simpl. by rewrite app_nil_r.
  - simpl. erewrite bind_run; [|reflexivity]. rewrite IH.
    unfold set_stdout. simpl. by rewrite <- app_assoc.
Qed.

Lemma notes_run st : notes st = (inr tt, set_stdout (stdout st ++ notes_lines) st).
Proof.
  unfold notes, bind, print, modify, set_stdout, notes_lines. simpl.
  by rewrite <- !app_assoc.
Qed.

(** The error report: nothing when no record was appended; else the
    records, in the order they were appended, between two lines. *)
Lemma print_errors_run st :
  print_errors st = (inr tt, set_stdout (stdout st ++ error_report (error_list st)) st).
Proof.
  unfold print_errors, error_report.
  erewrite bind_run; [|reflexivity].
  destruct (error_list st) as [|record records] eqn:Herr.
  - unfold ret. destruct st. unfold set_stdout. simpl. by rewrite app_nil_r.
  - erewrite bind_run; [|reflexivity].
    erewrite bind_run; [|reflexivity].
    erewrite bind_run; [|apply for_each_print].
    unfold print, modify, set_stdout. simpl. by rewrite <- !app_assoc.
Qed.

(** Step 4 once a subscription has been processed. *)
Lemma grand_totals_run st :
  totals_ready st -> requested_order st = Some canonical_order ->
  grand_totals st =
  (inr tt,
   set_stdout (stdout st ++ grand_total_header ++
               total_lines (global_totals st) canonical_order) st).
Proof.
  intros Hready Horder. unfold grand_totals.
  erewrite bind_run; [|reflexivity].
  erewrite bind_run; [|reflexivity].
  erewrite bind_run; [|reflexivity].
  cbn [requested_order set_stdout]. rewrite Horder.
  rewrite grand_total_lines_run; [|exact Hready].
  unfold set_stdout, grand_total_header. simpl. by rewrite <- !app_assoc.
Qed.


End Report.

(** * Further properties of the script *)


(** X1.  The loop over the subscriptions treats a list of accounts as the
    list of its enabled ones: an account whose state is not [Enabled] is
    passed over, with no change of the state, so no command, no line and
    no count. *)
Theorem disabled_accounts_ignored (w : world) (accounts : list account) (st : state) :
  process_accounts w accounts st =
    process_accounts w (List.filter enabled accounts) st /\
  (forall a, enabled a = false -> process_account w a st = (inr tt, st)).
Proof.
  split; [apply process_accounts_enabled|].
  intros a. apply process_account_skipped.
Qed.

(** X2.  The loop over the subscriptions, run from the initial state, ends
    without an exception; the total of each of the seven categories is
    then the sum of the counts of that category in the censuses of the
    enabled subscriptions, and the totals hold no other key. *)
Theorem grand_totals_are_sums (w : world) (accounts : list account) :
  fst (process_accounts w accounts initial_state) = inr tt /\
  (forall category, category ∈ canonical_order ->
     global_totals (snd (process_accounts w accounts initial_state)) !! category =
     Some (Zsum (map (fun a => default 0%Z (census_of w a !! category))
                     (List.filter enabled accounts)))) /\
  (forall category, category ∉ canonical_order ->
     global_totals (snd (process_accounts w accounts initial_state)) !! category =
     None).
Proof.
  destruct (process_accounts_run w accounts initial_state initial_totals_ready)
    as (st' & Hrun & _ & Htot & Hoth & _).
  rewrite Hrun. simpl. split; [done|]. split.
  - intros c Hc. rewrite (Htot c Hc). simpl.
    rewrite (zero_census_lookup c Hc). simpl. f_equal.
  - intros c Hc. rewrite (Hoth c Hc). simpl.
    destruct (zero_census !! c) as [v|] eqn:Hv; [|done].
    exfalso. apply Hc. apply census_keys_zero. by eexists.
Qed.

(** X3.  Nothing that happens in a subscription ends the loop: from every
    state whose totals hold the seven categories, the loop over the
    accounts ends without an exception, whatever the commands give; the
    commands it starts and the error records it appends are those of each
    subscription, one subscription after the other, and what one
    subscription starts and records does not depend on the ones before. *)
Theorem subscription_failures_contained
    (w : world) (accounts : list account) (st : state) :
  totals_ready st ->
  exists st',
    process_accounts w accounts st = (inr tt, st') /\
    calls st' = calls st ++ concat (map (commands_of w) accounts) /\
    error_list st' = error_list st ++ concat (map (errors_of w) accounts).
Proof.
  intros Hready.
  destruct (process_accounts_run w accounts st Hready)
    as (st' & Hrun & _ & _ & _ & Hcalls & Herr & _).
  by exists st'.
Qed.

Lemma subscription_failures_contained_witness :
  exists st',
    process_accounts vm_failure_world sample_accounts initial_state = (inr tt, st') /\
    calls st' =
      calls initial_state ++ concat (map (commands_of vm_failure_world) sample_accounts) /\
    error_list st' =
      error_list initial_state ++
      concat (map (errors_of vm_failure_world) sample_accounts).
Proof.
  exact (subscription_failures_contained vm_failure_world sample_accounts
           initial_state initial_totals_ready).
Defined.


(** X5.  The error records of a subscription: none when it is not
    enabled; else the record of the VM count when the command or [int]
    failed, followed by the record of the resource list when it could not
    be read or, when it was read and holds a cluster, by what the capacity
    resolver recorded.  So a subscription appends at most two records. *)
Theorem subscription_error_records (w : world) (a : account) :
  errors_of w a =
    (if enabled a then
       match vm_reading w (a_id a) with
       | inl e => [vm_error_record a e]
       | inr _ => []
       end ++
       match az_resource_list_json w (a_id a) with
       | inl e => [resource_error_record a e]
       | inr rs => if existsb is_aks rs then aks_errors w (a_id a) (a_name a) else []
       end
     else []) /\
  length (errors_of w a) <= 2.
Proof.
  destruct (enabled a) eqn:Hen.
  - destruct (enabled_observed w a Hen) as (-> & _). split; [done|].
    rewrite length_app. unfold vm_errors, resource_errors.
    assert (length (aks_errors w (a_id a) (a_name a)) <= 1) as Haks.
    { destruct (resolver_errors w (a_id a) (a_name a)) as [-> | (_ & d & ->)];
        simpl; lia. }
    destruct (vm_reading w (a_id a));
      destruct (az_resource_list_json w (a_id a)) as [e'|rs];
      try destruct (existsb is_aks rs); simpl; lia.
  - destruct (skipped_observed w a Hen) as (-> & _). split; [done|]. simpl. lia.
Qed.

(** X6.  Every error record a subscription appends starts with the name of
    the subscription and, in brackets, its id. *)
Theorem error_records_name_subscription (w : world) (a : account) :
  Forall (fun record =>
            exists detail,
              record = a_name a +:+ " (" +:+ a_id a +:+ ")" +:+ detail)
         (errors_of w a).
Proof.
  destruct (enabled a) eqn:Hen.
  - destruct (enabled_observed w a Hen) as (-> & _).
    apply Forall_app. split.
    + unfold vm_errors. destruct (vm_reading w (a_id a)) as [e|n]; [|constructor].
      constructor; [|constructor].
      by exists (" - Error executing 'az vm list'. Error: " +:+ Py.str_exn e).
    + unfold resource_errors.
      destruct (az_resource_list_json w (a_id a)) as [e|rs].
      * constructor; [|constructor].
        by exists (" - Error executing 'az resource list'. Error: " +:+ Py.str_exn e).
      * destruct (existsb is_aks rs); [|constructor].
        destruct (resolver_errors w (a_id a) (a_name a)) as [-> | (_ & d & ->)];
          [constructor|].
        constructor; [|constructor]. by exists d.
  - destruct (skipped_observed w a Hen) as (-> & _). constructor.
Qed.

(** X7.  The Virtual Machines count of an enabled subscription is the
    number step 1 reads when that number is positive, and 0 when the
    number is zero or negative or when the command or [int] failed; the
    resource scan never changes it. *)
Theorem virtual_machines_count (w : world) (a : account) :
  census_of w a !! VMS =
  if enabled a then
    Some (match vm_reading w (a_id a) with
          | inr n => if (0 <? n)%Z then n else 0%Z
          | inl _ => 0%Z
          end)
  else None.
Proof.
  destruct (enabled a) eqn:Hen.
  - destruct (enabled_census w a Hen) as (_ & -> & _). f_equal.
    destruct (vm_reading w (a_id a)) as [e|n]; [done|].
    destruct (0 <? n)%Z eqn:Hn; [apply Z.ltb_lt in Hn | apply Z.ltb_ge in Hn]; lia.
  - by destruct (skipped_observed w a Hen) as (_ & _ & _ & ->).
Qed.

(** X8.  For resource lists whose descriptors are well formed (each has a
    type that is a text, and a kind that is a text or absent), the
    Container Hosts count of an enabled subscription is what the capacity
    resolver returns when the resource list was read and holds a cluster
    descriptor, and 0 otherwise; the position and the number of the
    cluster descriptors do not matter. *)
Theorem container_hosts_count (w : world) (a : account) :
  census_of w a !! CONTAINER_HOSTS =
  if enabled a then
    Some (match az_resource_list_json w (a_id a) with
          | inr rs =>
              if existsb is_aks rs then aks_value w (a_id a) (a_name a) else 0%Z
          | inl _ => 0%Z
          end)
  else None.
Proof.
  destruct (enabled a) eqn:Hen.
  - by destruct (enabled_census w a Hen) as (_ & _ & -> & _).
  - by destruct (skipped_observed w a Hen) as (_ & _ & _ & ->).
Qed.

(** X9.  For each of the five categories counted by the generic path, the
    count of an enabled subscription is the number of descriptors of its
    resource list that the categorisation puts in that category, and 0
    when the resource list could not be read. *)
Theorem category_counts (w : world) (a : account) :
  Forall (fun category =>
            census_of w a !! category =
            if enabled a then
              Some (match az_resource_list_json w (a_id a) with
                    | inr rs => count_of category rs
                    | inl _ => 0%Z
                    end)
            else None)
         [CAAS; SERVERLESS; BUCKETS; DATABASES; REGISTRIES].
Proof.
  destruct (enabled a) eqn:Hen.
  - destruct (enabled_census w a Hen) as (_ & _ & _ & Hcount).
    repeat (constructor;
            [apply Hcount; [by apply (bool_decide_unpack _); vm_compute|done|done]|]).
    constructor.
  - destruct (skipped_observed w a Hen) as (_ & _ & _ & ->).
    repeat (constructor; [done|]). constructor.
Qed.

(** X10.  The census of an enabled subscription holds the seven categories
    and no other key: every category the scan counts in is one of those
    the summary prints, and the summary never falls back on a default. *)
Theorem census_has_seven_keys (w : world) (a : account) (category : string) :
  is_Some (census_of w a !! category) <->
  enabled a = true /\ category ∈ canonical_order.
Proof.
  destruct (enabled a) eqn:Hen.
  - destruct (enabled_census w a Hen) as (Hkeys & _). rewrite (Hkeys category).
    tauto.
  - destruct (skipped_observed w a Hen) as (_ & _ & _ & ->). split.
    + intros [v Hv]. done.
    + by intros [? _].
Qed.

Lemma census_nonneg (w : world) (a : account) (category : string) (n : Z) :
  census_of w a !! category = Some n -> (0 <= n)%Z.
Proof.
  intros Hn. destruct (enabled a) eqn:Hen.
  - destruct (enabled_census w a Hen) as (Hkeys & Hvm & Hhosts & Hcount).
    assert (Hc : category ∈ canonical_order) by (apply Hkeys; by eexists).
    destruct (decide (category = VMS)) as [->|Hv].
    { rewrite Hvm in Hn. injection Hn as <-.
      destruct (vm_reading w (a_id a)); lia. }
    destruct (decide (category = CONTAINER_HOSTS)) as [->|Hh].
    { rewrite Hhosts in Hn. injection Hn as <-.
      destruct (az_resource_list_json w (a_id a)) as [e|rs]; [lia|].
      destruct (existsb is_aks rs); [apply resolver_nonneg | lia]. }
    rewrite (Hcount category Hc Hv Hh) in Hn. injection Hn as <-.
    destruct (az_resource_list_json w (a_id a)) as [e|rs]; [lia|].
    unfold count_of. lia.
  - destruct (skipped_observed w a Hen) as (_ & _ & _ & Hempty).
    by rewrite Hempty in Hn.
Qed.

Lemma Zsum_map_nonneg {A} (f : A -> Z) (l : list A) :
  (forall x, 0 <= f x)%Z -> (0 <= Zsum (map f l))%Z.
Proof.
  intros Hf. induction l as [|x l IH]; simpl; [lia|]. specialize (Hf x). lia.
Qed.

(** X11.  No count is negative: neither a count of the census of a
    subscription, nor a total after the loop over the subscriptions. *)
Theorem counts_nonnegative (w : world) :
  (forall a category n, census_of w a !! category = Some n -> (0 <= n)%Z) /\
  (forall accounts category n,
     global_totals (snd (process_accounts w accounts initial_state)) !! category =
       Some n ->
     (0 <= n)%Z).
Proof.
  split; [apply census_nonneg|].
  intros accounts c n.
  destruct (process_accounts_run w accounts initial_state initial_totals_ready)
    as (st' & Hrun & _ & Htot & Hoth & _).
  rewrite Hrun. simpl. destruct (decide (c ∈ canonical_order)) as [Hc|Hc].
  - rewrite (Htot c Hc). simpl. rewrite (zero_census_lookup c Hc). simpl.
    intros [= <-].
    apply (Zsum_map_nonneg (fun a => default 0%Z (census_of w a !! c))).
    intros a. destruct (census_of w a !! c) as [v|] eqn:Hv; simpl; [|lia].
    by apply (census_nonneg w a c).
  - rewrite (Hoth c Hc). simpl. intros Hn. exfalso. apply Hc.
    apply census_keys_zero. by eexists.
Qed.


(** X13.  The account list is read outside every handler: when the
    command or the parser fails, the script ends with that exception, with
    nothing printed, no error record and no other command started. *)
Theorem account_list_failure_aborts (w : world) (e : Py.exn) (st : state) :
  az_account_list_json w = inl e ->
  main w st = (inl e, started AzAccountList st).
Proof.
  intros Hfetch. unfold main, bind, run, modify, lift, raise, started.
  cbn [fst snd]. by rewrite Hfetch.
Qed.

Lemma account_list_failure_aborts_witness :
  main no_login_world initial_state =
  (inl (Py.ValueError "Expecting value: line 1 column 1 (char 0)"),
   started AzAccountList initial_state).
Proof.
  exact (account_list_failure_aborts no_login_world
           (Py.ValueError "Expecting value: line 1 column 1 (char 0)")
           initial_state eq_refl).
Defined.



(** X15.  When the account list is read and holds an enabled subscription,
    the script ends without an exception.  It has started the account
    list and then the commands of each subscription; its error list holds
    the records of each subscription, in order; and it has printed the
    lines of each subscription, the heading of the grand totals, one line
    for each of the seven categories in the fixed order with the sum of
    the counts of the enabled subscriptions, the notes, and the error
    report: nothing when no record was appended, else the records in
    order between a heading and the separator. *)
Theorem run_completes (w : world) (accounts : list account) :
  az_account_list_json w = inr accounts ->
  existsb enabled accounts = true ->
  exists final,
    main w initial_state = (inr tt, final) /\
    calls final = AzAccountList :: concat (map (commands_of w) accounts) /\
    error_list final = concat (map (errors_of w) accounts) /\
    (forall category, category ∈ canonical_order ->
       global_totals final !! category =
       Some (Zsum (map (fun a => default 0%Z (census_of w a !! category))
                       (List.filter enabled accounts)))) /\
    stdout final =
      concat (map (output_of w) accounts) ++
      [nl +:+ separator; "--- GRAND TOTALS ACROSS ALL ENABLED SUBSCRIPTIONS ---"] ++
      map (fun category =>
             "Grand Total " +:+ category +:+ ": " +:+
             Py.str_of_int (default 0%Z (global_totals final !! category)))
          canonical_order ++
      notes_lines ++
      match error_list final with
      | [] => []
      | records => [nl +:+ separator; "Errors Encountered:"] ++ records ++ [separator]
      end.
Proof.
  intros Hfetch Hsome.
  set (s0 := started AzAccountList initial_state).
  assert (Hready : totals_ready s0) by exact initial_totals_ready.
  destruct (process_accounts_run w accounts s0 Hready)
    as (st' & Hloop & Hr' & Htot & _ & Hcalls & Herr & Hord).
  pose proof (process_accounts_stdout w accounts s0 Hready) as Hout.
  rewrite Hloop in Hout. simpl in Hout. rewrite Hsome in Hord.
  eexists. split.
  { unfold main.
    erewrite bind_run; [|unfold run; rewrite Hfetch; reflexivity].
    erewrite bind_run; [|exact Hloop].
    erewrite bind_run; [|by apply grand_totals_run].
    erewrite bind_run; [|apply notes_run].
    apply print_errors_run. }
  simpl. split; [by rewrite Hcalls|]. split; [by rewrite Herr|]. split.
  - intros c Hc. rewrite (Htot c Hc). simpl.
    rewrite (zero_census_lookup c Hc). simpl. f_equal.
  - rewrite Hout. unfold grand_total_header, total_lines, error_report.
    rewrite <- !app_assoc. simpl. by destruct (error_list st').
Qed.

Lemma run_completes_witness :
  exists final,
    main two_subscription_world initial_state = (inr tt, final) /\
    global_totals final !! VMS = Some 8%Z.
Proof.
  destruct (run_completes two_subscription_world sample_accounts eq_refl eq_refl)
    as (final & Hmain & _ & _ & Htotals & _).
  exists final. split; [exact Hmain|].
  rewrite (Htotals VMS); [reflexivity|].
  by apply (bool_decide_unpack _); vm_compute.
Defined.

Lemma existsb_Permutation {A} (f : A -> bool) (l l' : list A) :
  Permutation l l' -> existsb f l = existsb f l'.
Proof.
  induction 1 as [|x l l' _ IH|x y l|l l' l'' _ IH1 _ IH2]; simpl.
  - done.
  - by rewrite IH.
  - by destruct (f x), (f y).
  - congruence.
Qed.

Lemma count_of_Permutation category (l l' : list resource) :
  Permutation l l' -> count_of category l = count_of category l'.
Proof.
  unfold count_of. intros Hperm. f_equal.
  induction Hperm as [|x l l' _ IH|x y l|l l' l'' _ IH1 _ IH2]; simpl.
  - done.
  - destruct (counts_as category x); simpl; by rewrite IH.
  - by destruct (counts_as category x), (counts_as category y).
  - congruence.
Qed.

Lemma aks_value_output (w w' : world) (subscription_id subscription_name : string) :
  aks_count_output w' subscription_id = aks_count_output w subscription_id ->
  aks_value w' subscription_id subscription_name =
  aks_value w subscription_id subscription_name.
Proof.
  intros H.
  unfold aks_value, get_configured_aks_node_count, try_except, bind, run, modify,
    lift. cbn [fst snd]. by rewrite H.
Qed.

(** X16.  For resource lists whose descriptors are well formed (each has
    a type that is a text, and a kind that is a text or absent), the
    census of a subscription does not depend on the order in which the
    resource list gives the descriptors: two runs that read the same VM
    count and the same output of the capacity pipe, and resource lists
    that are permutations of each other, end with the same census,
    whichever cluster descriptor comes first. *)
Theorem census_order_independent
    (w w' : world) (a : account) (rs rs' : list resource) :
  az_vm_list_count_output w' (a_id a) = az_vm_list_count_output w (a_id a) ->
  aks_count_output w' (a_id a) = aks_count_output w (a_id a) ->
  az_resource_list_json w (a_id a) = inr rs ->
  az_resource_list_json w' (a_id a) = inr rs' ->
  Permutation rs rs' ->
  census_of w' a = census_of w a.
Proof.
  intros Hvm Haks Hrs Hrs' Hperm. destruct (enabled a) eqn:Hen.
  - destruct (enabled_census w a Hen) as (Hkeys & Hv & Hh & Hcount).
    destruct (enabled_census w' a Hen) as (Hkeys' & Hv' & Hh' & Hcount').
    rewrite Hrs in Hh, Hcount. rewrite Hrs' in Hh', Hcount'.
    apply map_eq. intros c.
    destruct (decide (c ∈ canonical_order)) as [Hc|Hc].
    + destruct (decide (c = VMS)) as [->|Hnv].
      { rewrite Hv, Hv'. unfold vm_reading. by rewrite Hvm. }
      destruct (decide (c = CONTAINER_HOSTS)) as [->|Hnh].
      { rewrite Hh, Hh'. rewrite (existsb_Permutation is_aks rs rs' Hperm).
        by rewrite (aks_value_output w w' _ _ Haks). }
      rewrite (Hcount c Hc Hnv Hnh), (Hcount' c Hc Hnv Hnh).
      by rewrite (count_of_Permutation c rs rs' Hperm).
    + destruct (census_of w a !! c) as [v|] eqn:H1.
      { exfalso. apply Hc, Hkeys. by eexists. }
      destruct (census_of w' a !! c) as [v|] eqn:H2; [|done].
      exfalso. apply Hc, Hkeys'. by eexists.
  - destruct (skipped_observed w a Hen) as (_ & _ & _ & ->).
    by destruct (skipped_observed w' a Hen) as (_ & _ & _ & ->).
Qed.

Lemma census_order_independent_witness :
  census_of reversed_cluster_world (Account "Production" "sub-1" "Enabled") =
  census_of cluster_world (Account "Production" "sub-1" "Enabled").
Proof.
  apply (census_order_independent cluster_world reversed_cluster_world
           (Account "Production" "sub-1" "Enabled")
           two_cluster_resources (rev two_cluster_resources)
           eq_refl eq_refl eq_refl eq_refl).
  apply Permutation_rev.
Defined.
